(** * Mission Control: the planning workflow of a task

    A shallow embedding of the three planning sources:
    - the answer route   ([POST /api/tasks/[id]/planning/answer]),
    - the planning route ([GET] and [POST /api/tasks/[id]/planning]),
    - the lock-button gate of the [PlanningTab] component.

    JavaScript numbers are IEEE 754 binary64 values, so the progress
    percentage is computed with the kernel's primitive floats; the SQLite
    tables are lists of rows threaded through a small handler monad. *)

From Stdlib Require Import ZArith List String Ascii Bool Lia.
From Stdlib Require PrimFloat FloatOps SpecFloat Uint63.
Import ListNotations.

Local Open Scope string_scope.
Local Open Scope list_scope.
Local Open Scope Z_scope.

(* ================================================================== *)
(** ** JavaScript values *)

Module Js.

(** A JS [number]. *)
Definition number := PrimFloat.float.

(** An array length or a small counter as a [number]: exact for
    [0 <= z < 2^53]. *)
Definition of_Z (z : Z) : number := PrimFloat.of_uint63 (Uint63.of_Z z).

(** [Math.round x]: the integer closest to [x], ties towards +infinity,
    that is floor (x + 1/2) computed exactly.  A finite double is
    [(-1)^s * m * 2^e]; the result is an integer, returned as [Z].
    NaN and the infinities are not integers: they are mapped to [0] here
    and never arise from a quotient of two lengths with a positive
    divisor. *)
Definition Math_round (x : number) : Z :=
  match FloatOps.Prim2SF x with
  | SpecFloat.S754_finite s m e =>
      let sm := if s then Z.neg m else Z.pos m in
      if 0 <=? e then sm * 2 ^ e
      else (2 * sm + 2 ^ (- e)) / 2 ^ (1 - e)
  | _ => 0
  end.

(** Truthiness of a string: only the empty string is falsy. *)
Definition truthy_string (s : string) : bool :=
  negb (String.eqb s "").

(** Truthiness of a [string | null | undefined] value. *)
Definition truthy (v : option string) : bool :=
  match v with
  | Some s => truthy_string s
  | None => false
  end.

(** [String.fromCharCode n] for a code unit below 256: the one-character
    string of that unit (the strings of this development are sequences
    of 8-bit units, which covers every identifier built below). *)
Definition String_fromCharCode (n : nat) : string :=
  String (ascii_of_nat n) EmptyString.

End Js.

(* ================================================================== *)
(** ** Progress *)

(** [progress] of the planning state: [{ total, answered, percentage }]. *)
Record Progress := mkProgress {
  total : Z;
  answered : Z;
  percentage : Z
}.

(** [total > 0 ? Math.round((answered / total) * 100) : 0] *)
Definition percentage_of (answered total : Z) : Z :=
  if 0 <? total
  then Js.Math_round
         (PrimFloat.mul (PrimFloat.div (Js.of_Z answered) (Js.of_Z total))
                        (Js.of_Z 100))
  else 0.

(* ================================================================== *)
(** ** Types of the planning workflow ([@/lib/types]) *)

Inductive PlanningCategory :=
  goal | audience | scope | design | content | technical | timeline | constraints.

Inductive QuestionType := multiple_choice | text.

(** One entry [{ id, label }] of a question's choice list. *)
Record PlanningQuestionOption := mkOption {
  option_id : string;
  option_label : string
}.

(** A row of [planning_questions].  The [options] column holds the JSON
    text of the choice list; the model keeps the value that text denotes,
    so [JSON.stringify] on insertion and [JSON.parse] on reading are the
    identity on it.  [None] is SQL NULL. *)
Record PlanningQuestion := mkQuestion {
  q_id : string;
  q_task_id : string;
  q_category : PlanningCategory;
  q_question : string;
  q_question_type : QuestionType;
  q_options : option (list PlanningQuestionOption);
  q_answer : option string;
  q_answered_at : option string;
  q_sort_order : Z
}.

(** A row of [planning_specs]. *)
Record PlanningSpec := mkSpec {
  spec_id : string;
  spec_task_id : string;
  spec_markdown : string
}.

(** A row of [tasks]: the two columns the planning routes touch. *)
Record Task := mkTask {
  task_id : string;
  task_status : string
}.

Record PlanningState := mkState {
  questions : list PlanningQuestion;
  spec : option PlanningSpec;
  progress : Progress;
  isLocked : bool
}.

(** A question template of the catalogue: [{ question, options? }]. *)
Record Template := mkTemplate {
  t_question : string;
  t_options : option (list string)
}.

(* ================================================================== *)
(** ** The database

    The schema lives in [@/lib/db], outside the sources at hand: tables are
    lists of rows in insertion order, without key constraints.  A record's
    identity is its [id]. *)

Record Db := mkDb {
  tasks : list Task;
  planning_questions : list PlanningQuestion;
  planning_specs : list PlanningSpec
}.

(** What a request handler can observe and change: the database, SQLite's
    [datetime('now')], and the values successive [crypto.randomUUID()]
    calls return, with the number of values drawn so far. *)
Record World := mkWorld {
  db : Db;
  clock : string;
  entropy : nat -> string;
  drawn : nat
}.

Module Sql.

(** [SELECT * FROM tasks WHERE id = ?] (first row) *)
Definition select_task (taskId : string) (d : Db) : option Task :=
  find (fun t => String.eqb (task_id t) taskId) (tasks d).

(** [SELECT * FROM planning_questions WHERE id = ? AND task_id = ?] *)
Definition select_question_of_task (questionId taskId : string) (d : Db)
  : option PlanningQuestion :=
  find (fun q => String.eqb (q_id q) questionId
                 && String.eqb (q_task_id q) taskId)
       (planning_questions d).

(** [SELECT * FROM planning_questions WHERE id = ?] *)
Definition select_question (questionId : string) (d : Db)
  : option PlanningQuestion :=
  find (fun q => String.eqb (q_id q) questionId) (planning_questions d).

(** [SELECT * FROM planning_specs WHERE task_id = ?] *)
Definition select_spec (taskId : string) (d : Db) : option PlanningSpec :=
  find (fun s => String.eqb (spec_task_id s) taskId) (planning_specs d).

Definition set_answer (answer now : string) (q : PlanningQuestion)
  : PlanningQuestion :=
  mkQuestion (q_id q) (q_task_id q) (q_category q) (q_question q)
             (q_question_type q) (q_options q)
             (Some answer) (Some now) (q_sort_order q).

(** [UPDATE planning_questions SET answer = ?, answered_at = datetime('now')
     WHERE id = ?] *)
Definition update_answer (answer now questionId : string) (d : Db) : Db :=
  mkDb (tasks d)
       (map (fun q => if String.eqb (q_id q) questionId
                      then set_answer answer now q else q)
            (planning_questions d))
       (planning_specs d).

(** [SELECT COUNT( * ) as count FROM planning_questions WHERE task_id = ?] *)
Definition count_questions (taskId : string) (d : Db) : Z :=
  Z.of_nat (List.length (filter (fun q => String.eqb (q_task_id q) taskId)
                           (planning_questions d))).

(** [UPDATE tasks SET status = ? WHERE id = ?] *)
Definition update_task_status (status taskId : string) (d : Db) : Db :=
  mkDb (map (fun t => if String.eqb (task_id t) taskId
                      then mkTask (task_id t) status else t)
            (tasks d))
       (planning_questions d)
       (planning_specs d).

(** [INSERT INTO planning_questions (id, task_id, category, question,
     question_type, options, sort_order) VALUES (?, ?, ?, ?, ?, ?, ?)]:
    the answer columns stay NULL. *)
Definition insert_question
    (id taskId : string) (category : PlanningCategory) (question : string)
    (questionType : QuestionType)
    (options : option (list PlanningQuestionOption)) (sortOrder : Z)
    (d : Db) : Db :=
  mkDb (tasks d)
       (planning_questions d ++
          [mkQuestion id taskId category question questionType options
                      None None sortOrder])
       (planning_specs d).

(** [ORDER BY sort_order]: a stable insertion sort (rows with equal keys
    keep their table order). *)
Fixpoint insert_by_sort_order (q : PlanningQuestion)
    (l : list PlanningQuestion) : list PlanningQuestion :=
  match l with
  | [] => [q]
  | x :: r =>
      if q_sort_order q <=? q_sort_order x then q :: l
      else x :: insert_by_sort_order q r
  end.

Definition order_by_sort_order (l : list PlanningQuestion)
  : list PlanningQuestion :=
  fold_right insert_by_sort_order [] l.

(** [SELECT * FROM planning_questions WHERE task_id = ? ORDER BY sort_order] *)
Definition select_questions (taskId : string) (d : Db)
  : list PlanningQuestion :=
  order_by_sort_order
    (filter (fun q => String.eqb (q_task_id q) taskId)
            (planning_questions d)).

End Sql.

(* ================================================================== *)
(** ** Request handlers

    A handler runs over the world and either goes on with a value or has
    already returned its response ([return NextResponse.json(...)]).
    Statements do not fail here (no I/O error, no constraint violation), so
    of the [catch] branches only the one for an unreadable request body is
    reached. *)

Inductive Response (A : Type) :=
| Json (body : A)                         (* NextResponse.json(body) *)
| Error (status : Z) (error : string).    (* NextResponse.json({ error }, { status }) *)

Arguments Json {A} body.
Arguments Error {A} status error.

Inductive Outcome (R A : Type) :=
| Returned (r : R)
| Value (a : A).

Arguments Returned {R A} r.
Arguments Value {R A} a.

Definition Handler (R A : Type) := World -> Outcome R A * World.

Definition ret {R A} (a : A) : Handler R A := fun w => (Value a, w).

Definition bind {R A B} (m : Handler R A) (k : A -> Handler R B)
  : Handler R B :=
  fun w => match m w with
           | (Returned r, w') => (Returned r, w')
           | (Value a, w') => k a w'
           end.

Declare Scope handler_scope.
Delimit Scope handler_scope with handler.
Notation "x <- m ;; k" := (bind m (fun x => k))
  (at level 100, m at next level, right associativity) : handler_scope.
Notation "m ;; k" := (bind m (fun _ => k))
  (at level 100, right associativity) : handler_scope.

(** [if (c) return r;] *)
Definition when {R} (c : bool) (r : R) : Handler R unit :=
  fun w => if c then (Returned r, w) else (Value tt, w).

(** A prepared statement that reads. *)
Definition query {R A} (f : Db -> A) : Handler R A :=
  fun w => (Value (f (db w)), w).

(** A prepared statement that writes; it may read [datetime('now')]. *)
Definition run_stmt {R} (f : string -> Db -> Db) : Handler R unit :=
  fun w => (Value tt,
            mkWorld (f (clock w) (db w)) (clock w) (entropy w) (drawn w)).

(** [crypto.randomUUID()] *)
Definition randomUUID {R} : Handler R string :=
  fun w => (Value (entropy w (drawn w)),
            mkWorld (db w) (clock w) (entropy w) (S (drawn w))).

(** [for (const x of xs) body], with the local variable the body updates. *)
Fixpoint forEach {R A S} (xs : list A) (body : A -> S -> Handler R S) (s : S)
  : Handler R S :=
  match xs with
  | [] => ret s
  | x :: rest => bind (body x s) (forEach rest body)
  end.

(** The response of a request and the world it leaves. *)
Definition respond {R} (h : Handler R R) (w : World) : R * World :=
  match h w with
  | (Returned r, w') => (r, w')
  | (Value r, w') => (r, w')
  end.

Definition is_none {A} (o : option A) : bool :=
  match o with Some _ => false | None => true end.

Definition is_some {A} (o : option A) : bool := negb (is_none o).

(** [{ ...q, options: q.options ? JSON.parse(q.options) : undefined }] *)
Definition parse_options (q : PlanningQuestion) : PlanningQuestion :=
  mkQuestion (q_id q) (q_task_id q) (q_category q) (q_question q)
             (q_question_type q)
             (match q_options q with Some o => Some o | None => None end)
             (q_answer q) (q_answered_at q) (q_sort_order q).

(* ================================================================== *)
(** ** The planning route: catalogue, [GET] and [POST] *)

Module PlanningRoute.

(** Question templates by category *)
Definition QUESTION_TEMPLATES (c : PlanningCategory) : list Template :=
  match c with
  | goal =>
      [ mkTemplate "What is the primary outcome or goal of this task?"
          (Some ["Generate leads/sales"; "Provide information";
                 "Collect user data"; "Build brand awareness"; "Other"]);
        mkTemplate "How will you measure success?"
          (Some ["Conversion rate"; "Page views/traffic";
                 "Form submissions"; "User engagement"; "Other"]) ]
  | audience =>
      [ mkTemplate "Who is the primary target audience?"
          (Some ["B2B professionals"; "B2C consumers";
                 "Existing customers"; "New prospects"; "Other"]);
        mkTemplate "What problem does your audience face that this addresses?"
          None ]
  | scope =>
      [ mkTemplate "What is included in this task?" None;
        mkTemplate "What is explicitly NOT included (out of scope)?" None ]
  | design =>
      [ mkTemplate "Are there any reference sites or designs to follow?" None;
        mkTemplate "What is the visual style/tone?"
          (Some ["Professional/Corporate"; "Modern/Minimal";
                 "Bold/Creative"; "Friendly/Casual"; "Other"]);
        mkTemplate "Do you have brand colors or assets to use?"
          (Some ["Yes, I will provide them"; "No, use your best judgment";
                 "Use existing brand from website"; "Other"]) ]
  | content =>
      [ mkTemplate "Do you have the content/copy ready?"
          (Some ["Yes, I will provide it"; "No, please write it";
                 "I have rough notes to expand"; "Other"]);
        mkTemplate "Are there specific messages or points that must be included?"
          None ]
  | technical =>
      [ mkTemplate "What technology/platform should be used?"
          (Some ["Static HTML/CSS"; "React/Next.js"; "WordPress";
                 "No preference"; "Other"]);
        mkTemplate "Are there any integrations needed?"
          (Some ["Form submission to email"; "CRM integration";
                 "Analytics tracking"; "None needed"; "Other"]) ]
  | timeline =>
      [ mkTemplate "When do you need this completed?"
          (Some ["ASAP (within 24 hours)"; "This week"; "Next week";
                 "No rush"; "Specific date"]) ]
  | constraints =>
      [ mkTemplate "Are there any specific constraints or requirements?" None;
        mkTemplate "Is there a budget or resource limit?"
          (Some ["No budget limit"; "Keep it simple/minimal";
                 "Medium complexity okay"; "Other"]) ]
  end.

(** The category order of the generation loop. *)
Definition categories : list PlanningCategory :=
  [goal; audience; scope; design; content; technical; timeline; constraints].

(** [xs.map((x, idx) => f x idx)], from index [i] on. *)
Fixpoint mapi_from {A B} (f : A -> nat -> B) (i : nat) (xs : list A)
  : list B :=
  match xs with
  | [] => []
  | x :: rest => f x i :: mapi_from f (S i) rest
  end.

(** [template.options.map((label, idx) =>
      ({ id: String.fromCharCode(65 + idx), label }))] *)
Definition choice_options (labels : list string)
  : list PlanningQuestionOption :=
  mapi_from (fun label idx => mkOption (Js.String_fromCharCode (65 + idx)) label)
            O labels.

(** // Calculate progress *)
Definition calculate_progress (parsedQuestions : list PlanningQuestion)
  : Progress :=
  let answered :=
    Z.of_nat (List.length
                (filter (fun q => Js.truthy (q_answer q)) parsedQuestions)) in
  let total := Z.of_nat (List.length parsedQuestions) in
  mkProgress total answered (percentage_of answered total).

(** GET /api/tasks/[id]/planning - Get planning state *)
Definition GET (taskId : string)
  : Handler (Response PlanningState) (Response PlanningState) :=
  (task <- query (Sql.select_task taskId) ;;
   when (is_none task) (Error 404 "Task not found") ;;
   questions <- query (Sql.select_questions taskId) ;;
   let parsedQuestions := map parse_options questions in
   spec <- query (Sql.select_spec taskId) ;;
   ret (Json (mkState parsedQuestions spec
                      (calculate_progress parsedQuestions)
                      (is_some spec))))%handler.

(** The body of the inner generation loop: one template of a category. *)
Definition insert_template (taskId : string) (category : PlanningCategory)
    (template : Template) (sortOrder : Z)
  : Handler (Response PlanningState) Z :=
  (id <- randomUUID ;;
   let questionType :=
     if is_some (t_options template) then multiple_choice else text in
   let options := option_map choice_options (t_options template) in
   run_stmt (fun _ => Sql.insert_question id taskId category
                        (t_question template) questionType options sortOrder) ;;
   ret (sortOrder + 1))%handler.

(** POST /api/tasks/[id]/planning - Generate questions for a task *)
Definition POST (taskId : string)
  : Handler (Response PlanningState) (Response PlanningState) :=
  (task <- query (Sql.select_task taskId) ;;
   when (is_none task) (Error 404 "Task not found") ;;
   existingQuestions <- query (Sql.count_questions taskId) ;;
   when (0 <? existingQuestions) (Error 400 "Questions already generated") ;;
   run_stmt (fun _ => Sql.update_task_status "planning" taskId) ;;
   forEach categories
     (fun category sortOrder =>
        forEach (QUESTION_TEMPLATES category)
                (insert_template taskId category) sortOrder)
     0 ;;
   questions <- query (Sql.select_questions taskId) ;;
   let parsedQuestions := map parse_options questions in
   ret (Json (mkState parsedQuestions None
                      (mkProgress (Z.of_nat (List.length parsedQuestions)) 0 0)
                      false)))%handler.

End PlanningRoute.

(* ================================================================== *)
(** ** The answer route *)

Module AnswerRoute.

(** The parsed request body [{ questionId, answer }] with string fields;
    a field that is absent (or null) is [None]. *)
Record Body := mkBody {
  questionId : option string;
  answer : option string
}.

(** POST /api/tasks/[id]/planning/answer - Answer a planning question.
    [body = None] is a request whose body cannot be read: [request.json()]
    or the destructuring of its result throws. *)
Definition POST (taskId : string) (body : option Body)
  : Handler (Response PlanningQuestion) (Response PlanningQuestion) :=
  match body with
  | None => fun w => (Returned (Error 500 "Failed to answer question"), w)
  | Some body =>
      (when (negb (Js.truthy (questionId body))
             || negb (Js.truthy (answer body)))
            (Error 400 "questionId and answer are required") ;;
       let questionId := match questionId body with Some s => s | None => "" end in
       let answer := match answer body with Some s => s | None => "" end in
       (* Verify question belongs to this task *)
       question <- query (Sql.select_question_of_task questionId taskId) ;;
       when (is_none question) (Error 404 "Question not found") ;;
       (* Check if spec is already locked *)
       spec <- query (Sql.select_spec taskId) ;;
       when (is_some spec) (Error 400 "Spec is locked, cannot modify answers") ;;
       (* Update the answer *)
       run_stmt (fun now => Sql.update_answer answer now questionId) ;;
       (* Get updated question *)
       updatedQuestion <- query (Sql.select_question questionId) ;;
       match updatedQuestion with
       | None => fun w => (Returned (Error 500 "Question not found after update"), w)
       | Some updatedQuestion => ret (Json (parse_options updatedQuestion))
       end)%handler
  end.

End AnswerRoute.

(* ================================================================== *)
(** ** The lock button of the planning tab *)

Module PlanningTab.

(** What the component renders. *)
Inductive View :=
| Loading                          (* "Loading planning state..." *)
| StartPlanning                    (* no questions yet: the generate button *)
| SpecLocked (spec_markdown : string)
| Questions (lockButton : bool).   (* the questions, with or without
                                      "Lock Spec & Start Execution" *)

Definition PlanningTab (loading : bool) (state : option PlanningState) : View :=
  if loading then Loading
  else match state with
       | None => StartPlanning
       | Some state =>
           if (Z.of_nat (List.length (questions state)) =? 0) then StartPlanning
           else match isLocked state, spec state with
                | true, Some s => SpecLocked (spec_markdown s)
                | _, _ => Questions (percentage (progress state) =? 100)
                end
       end.

End PlanningTab.

(* ================================================================== *)
(** ** Specification-side notions *)

(** The task row exists. *)
Definition task_exists (d : Db) (taskId : string) : Prop :=
  exists t, In t (tasks d) /\ task_id t = taskId.

(** The task has a Spec: it is locked. *)
Definition has_spec (d : Db) (taskId : string) : Prop :=
  exists s, In s (planning_specs d) /\ spec_task_id s = taskId.

(** The question records of a task, in table order. *)
Definition questions_of (d : Db) (taskId : string) : list PlanningQuestion :=
  filter (fun q => String.eqb (q_task_id q) taskId) (planning_questions d).

(** The number of questions whose answer field is non-empty, counted
    record by record. *)
Fixpoint count_answered (qs : list PlanningQuestion) : Z :=
  match qs with
  | [] => 0
  | q :: rest =>
      match q_answer q with
      | Some (String _ _) => 1 + count_answered rest
      | _ => count_answered rest
      end
  end.

(** The outcomes of the answer operation, as the route reports them. *)
Definition NotFound : Response PlanningQuestion :=
  Error 404 "Question not found".
Definition Locked : Response PlanningQuestion :=
  Error 400 "Spec is locked, cannot modify answers".
Definition InvalidInput : Response PlanningQuestion :=
  Error 400 "questionId and answer are required".

(** The outcomes of the generate and read operations. *)
Definition TaskNotFound : Response PlanningState :=
  Error 404 "Task not found".
Definition AlreadyGenerated : Response PlanningState :=
  Error 400 "Questions already generated".

(** The letters of the alphabet, as one-character identifiers. *)
Definition alphabet : list string :=
  ["A"; "B"; "C"; "D"; "E"; "F"; "G"; "H"; "I"; "J"; "K"; "L"; "M";
   "N"; "O"; "P"; "Q"; "R"; "S"; "T"; "U"; "V"; "W"; "X"; "Y"; "Z"].

(** The catalogue in generation order: categories in their fixed order,
    templates in their order within a category. *)
Definition catalogue : list (PlanningCategory * Template) :=
  flat_map (fun c => map (fun t => (c, t)) (PlanningRoute.QUESTION_TEMPLATES c))
           PlanningRoute.categories.

(** The row the generation loop inserts for one template. *)
Definition generated_row (taskId id : string) (c : PlanningCategory)
    (t : Template) (sortOrder : Z) : PlanningQuestion :=
  mkQuestion id taskId c (t_question t)
             (if is_some (t_options t) then multiple_choice else text)
             (option_map PlanningRoute.choice_options (t_options t))
             None None sortOrder.

(** The rows inserted for a list of (category, template) pairs, from sort
    position [sortOrder] on, with the identifiers [ids k], [ids (k + 1)], ... *)
Fixpoint generated_rows (taskId : string)
    (cts : list (PlanningCategory * Template)) (sortOrder : Z)
    (ids : nat -> string) (k : nat) : list PlanningQuestion :=
  match cts with
  | [] => []
  | (c, t) :: rest =>
      generated_row taskId (ids k) c t sortOrder
        :: generated_rows taskId rest (sortOrder + 1) ids (S k)
  end.

(** A generated question and the template it was built from. *)
Definition built_from (ct : PlanningCategory * Template) (q : PlanningQuestion)
  : Prop :=
  q_category q = fst ct /\ q_question q = t_question (snd ct) /\
  match t_options (snd ct) with
  | Some labels =>
      q_question_type q = multiple_choice /\
      exists choices,
        q_options q = Some choices /\
        List.length choices = List.length labels /\
        map option_id choices = firstn (List.length labels) alphabet /\
        map option_label choices = labels
  | None => q_question_type q = text /\ q_options q = None
  end.

(** Only the answer and its timestamp may differ between two records. *)
Definition same_but_answer (old new : PlanningQuestion) : Prop :=
  q_id new = q_id old /\ q_task_id new = q_task_id old /\
  q_category new = q_category old /\ q_question new = q_question old /\
  q_question_type new = q_question_type old /\
  q_options new = q_options old /\ q_sort_order new = q_sort_order old.

(** Every Spec belongs to a task that has questions: the lock transition
    requires [total > 0], and questions are never deleted. *)
Definition specs_have_questions (d : Db) : Prop :=
  forall s, In s (planning_specs d) ->
    exists q, In q (planning_questions d) /\ q_task_id q = spec_task_id s.

(* ------------------------------------------------------------------ *)
(** *** The lock transition and the life of a planning store *)

Inductive LockResult :=
| LockNotFound
| AlreadyLocked
| Incomplete
| LockedAs (s : PlanningSpec).

(** Modelled from the spec: the lock transition [lock(taskId) -> Spec]; the
    route that implements it is not among the sources.  It signals
    [NotFound] if the task does not exist, [AlreadyLocked] if a Spec already
    exists, [Incomplete] unless [total > 0] and [answered == total], and
    otherwise persists exactly one Spec row for the task.  The row's
    identifier and document text come from outside. *)
Definition lock (taskId specId markdown : string) (d : Db) : LockResult * Db :=
  match Sql.select_task taskId d with
  | None => (LockNotFound, d)
  | Some _ =>
      match Sql.select_spec taskId d with
      | Some _ => (AlreadyLocked, d)
      | None =>
          let p := PlanningRoute.calculate_progress (Sql.select_questions taskId d) in
          if (0 <? total p) && (answered p =? total p)
          then let s := mkSpec specId taskId markdown in
               (LockedAs s,
                mkDb (tasks d) (planning_questions d) (planning_specs d ++ [s]))
          else (Incomplete, d)
      end
  end.

(** One request against the planning store, or the passing of time. *)
Inductive step : World -> World -> Prop :=
| step_read taskId w :
    step w (snd (respond (PlanningRoute.GET taskId) w))
| step_generate taskId w :
    step w (snd (respond (PlanningRoute.POST taskId) w))
| step_answer taskId body w :
    step w (snd (respond (AnswerRoute.POST taskId body) w))
| step_lock taskId specId markdown w :
    step w (mkWorld (snd (lock taskId specId markdown (db w)))
                    (clock w) (entropy w) (drawn w))
| step_tick now w :
    step w (mkWorld (db w) now (entropy w) (drawn w)).

(** The worlds that requests lead to from a store without specs. *)
Inductive reachable : World -> Prop :=
| reachable_init w : planning_specs (db w) = [] -> reachable w
| reachable_step w w' : reachable w -> step w w' -> reachable w'.

(* ------------------------------------------------------------------ *)
(** *** Bounded checks of the rounding, run by evaluation *)

(** [p] holds of every integer from [0] to [n]. *)
Fixpoint forall_upto (n : nat) (p : Z -> bool) : bool :=
  match n with
  | O => p 0
  | S k => p (Z.of_nat n) && forall_upto k p
  end.

(** For every [total] in [1..n] and [answered] in [0..total]. *)
Definition forall_counts (n : nat) (p : Z -> Z -> bool) : bool :=
  forall_upto n (fun t =>
    (t =? 0) || forall_upto (Z.to_nat t) (fun a => p a t)).

(** The percentage is 100 exactly when everything is answered. *)
Definition full_iff_all (a t : Z) : bool :=
  Bool.eqb (percentage_of a t =? 100) (a =? t).


(* ------------------------------------------------------------------ *)
(** *** Sample data *)

Module Sample.

Definition ids (n : nat) : string :=
  String.append "00000000-0000-4000-8000-0000000000"
    (String (ascii_of_nat (48 + n / 10))
            (String (ascii_of_nat (48 + n mod 10)) "")).

Definition now : string := "2026-01-01 00:00:00".

(** A task without questions. *)
Definition fresh : World :=
  mkWorld (mkDb [mkTask "task-1" "inbox"] [] []) now ids 0.

(** The same task after generation. *)
Definition generated : World := snd (respond (PlanningRoute.POST "task-1") fresh).

(** The first generated question of the task. *)
Definition first_question : PlanningQuestion :=
  generated_row "task-1" (ids 0) goal
    (mkTemplate "What is the primary outcome or goal of this task?"
       (Some ["Generate leads/sales"; "Provide information";
              "Collect user data"; "Build brand awareness"; "Other"]))
    0.

Definition answer_body (questionId value : string) : option AnswerRoute.Body :=
  Some (AnswerRoute.mkBody (Some questionId) (Some value)).

(** ... after every question has been answered with "No rush" ... *)
Definition complete : World :=
  fold_left (fun w n => snd (respond (AnswerRoute.POST "task-1"
                                        (answer_body (ids n) "No rush")) w))
            (seq 0 16) generated.

(** ... and after the lock. *)
Definition locked : World :=
  mkWorld (mkDb (tasks (db complete)) (planning_questions (db complete))
                [mkSpec "spec-1" "task-1" "# Spec"])
          now ids 16.

(** The first question as the locked store holds it. *)
Definition first_answered : PlanningQuestion :=
  Sql.set_answer "No rush" now first_question.

Definition answered_question (n : nat) : PlanningQuestion :=
  mkQuestion (ids n) "task-1" scope "What is included in this task?" text None
             (Some "everything") (Some now) (Z.of_nat n).

Definition open_question (n : nat) : PlanningQuestion :=
  mkQuestion (ids n) "task-1" scope "What is included in this task?" text None
             None None (Z.of_nat n).

(** 200 questions, all answered but the last. *)
Definition all_but_one : list PlanningQuestion :=
  map answered_question (seq 0 199) ++ [open_question 199].

(** Three questions, one of them answered; four, one answered. *)
Definition one_of_three : list PlanningQuestion :=
  [answered_question 0; open_question 1; open_question 2].
Definition two_of_three : list PlanningQuestion :=
  [answered_question 0; answered_question 1; open_question 2].

End Sample.


(* ================================================================== *)
(** ** The planning tab: what it selects, shows and sends *)

Module Tab.

(** [xs.findIndex((x, idx) => p x idx)], from index [i] on: the first index
    whose element satisfies [p], or [-1]. *)
Fixpoint findIndex_from {A} (p : A -> nat -> bool) (i : nat) (xs : list A) : Z :=
  match xs with
  | [] => -1
  | x :: rest => if p x i then Z.of_nat i else findIndex_from p (S i) rest
  end.

Definition findIndex {A} (p : A -> nat -> bool) (xs : list A) : Z :=
  findIndex_from p O xs.

(** [!q.answer] *)
Definition unanswered (q : PlanningQuestion) : bool :=
  negb (Js.truthy (q_answer q)).

(** [loadPlanningState]: the current question index once [data] is loaded
    ("Find first unanswered question"). *)
Definition loadPlanningState_index (data : PlanningState)
    (currentQuestionIndex : Z) : Z :=
  let firstUnanswered := findIndex (fun q _ => unanswered q) (questions data) in
  if 0 <=? firstUnanswered then firstUnanswered else currentQuestionIndex.

(** [answerQuestion], after a successful request ("Move to next question"):
    the index it sets, computed from the [state] and [currentQuestionIndex]
    the handler holds; [None] when it sets none. *)
Definition answerQuestion_index (state : PlanningState)
    (currentQuestionIndex : Z) : option Z :=
  let nextUnanswered :=
    findIndex (fun q idx => (currentQuestionIndex <? Z.of_nat idx) && unanswered q)
              (questions state) in
  if 0 <=? nextUnanswered then Some nextUnanswered
  else
    (* Check if there are any unanswered before current *)
    let anyUnanswered := findIndex (fun q _ => unanswered q) (questions state) in
    if 0 <=? anyUnanswered then Some anyUnanswered else None.

(** The Previous button: [Math.max(0, currentQuestionIndex - 1)]. *)
Definition previous (currentQuestionIndex : Z) : Z :=
  Z.max 0 (currentQuestionIndex - 1).

(** The Next button, rendered when
    [currentQuestionIndex < state.questions.length - 1]. *)
Definition next (state : PlanningState) (currentQuestionIndex : Z) : option Z :=
  if currentQuestionIndex <? Z.of_nat (List.length (questions state)) - 1
  then Some (currentQuestionIndex + 1) else None.

Definition category_eqb (a b : PlanningCategory) : bool :=
  match a, b with
  | goal, goal | audience, audience | scope, scope | design, design
  | content, content | technical, technical | timeline, timeline
  | constraints, constraints => true
  | _, _ => false
  end.

(** A question with its position: [{ ...q, index: idx }]. *)
Definition Indexed := (PlanningQuestion * nat)%type.

(** [if (!acc[c]) acc[c] = []; acc[c].push(entry)], on an object whose
    keys keep their insertion order. *)
Fixpoint push (c : PlanningCategory) (entry : Indexed)
    (acc : list (PlanningCategory * list Indexed))
  : list (PlanningCategory * list Indexed) :=
  match acc with
  | [] => [(c, [entry])]
  | (c', entries) :: rest =>
      if category_eqb c c' then (c', entries ++ [entry]) :: rest
      else (c', entries) :: push c entry rest
  end.

(** [xs.reduce((acc, x, idx) => f acc x idx, acc)], from index [i] on. *)
Fixpoint reduce_from {A B} (f : B -> A -> nat -> B) (i : nat) (xs : list A)
    (acc : B) : B :=
  match xs with
  | [] => acc
  | x :: rest => reduce_from f (S i) rest (f acc x i)
  end.

(** [groupedByCategory], as [Object.entries] lists it. *)
Definition groupedByCategory (qs : list PlanningQuestion)
  : list (PlanningCategory * list Indexed) :=
  reduce_from (fun acc q idx => push (q_category q) (q, idx) acc) O qs [].

(** [isSelected]: [answer === option.label ||
      (answer?.startsWith('Other:') && option.label === 'Other')] *)
Definition isSelected (currentQuestion : PlanningQuestion)
    (opt : PlanningQuestionOption) : bool :=
  match q_answer currentQuestion with
  | Some answer =>
      String.eqb answer (option_label opt)
      || (String.prefix "Other:" answer && String.eqb (option_label opt) "Other")
  | None => false
  end.

(** [isOther] *)
Definition isOther (opt : PlanningQuestionOption) : bool :=
  String.eqb (option_label opt) "Other".

Fixpoint drop (n : nat) (s : string) : string :=
  match n, s with
  | O, _ => s
  | S k, String _ rest => drop k rest
  | S _, EmptyString => EmptyString
  end.

(** [s.replace(pattern, '')]: [s] without the first occurrence of
    [pattern]. *)
Fixpoint remove_first (pattern s : string) : string :=
  if String.prefix pattern s then drop (String.length pattern) s
  else match s with
       | EmptyString => EmptyString
       | String c rest => String c (remove_first pattern rest)
       end.

(** [a || b] on strings that may be undefined. *)
Definition or_else (a b : option string) : option string :=
  if Js.truthy a then a else b.

(** The text shown in the "Please specify..." input:
    [otherText[id] || answer?.replace('Other: ', '') || '']. *)
Definition otherInputValue (otherText : string -> option string)
    (currentQuestion : PlanningQuestion) : string :=
  match or_else (otherText (q_id currentQuestion))
          (or_else (option_map (remove_first "Other: ") (q_answer currentQuestion))
                   (Some ""))
  with
  | Some s => s
  | None => ""
  end.

(** Whether that input is rendered under an option. *)
Definition otherInputShown (otherText : string -> option string)
    (currentQuestion : PlanningQuestion) (opt : PlanningQuestionOption) : bool :=
  isOther opt
  && (is_some (otherText (q_id currentQuestion))
      || match q_answer currentQuestion with
         | Some answer => String.prefix "Other:" answer
         | None => false
         end).

(** What the user does to the current question. *)
Inductive Action :=
| ClickOption (opt : PlanningQuestionOption)   (* an option button *)
| SubmitOther                                   (* Submit, or Enter, in the Other input *)
| SaveAnswer.                                   (* Save Answer of a text question *)

(** The call [answerQuestion(questionId, answer)] an action makes, if it
    makes one. *)
Definition request (otherText : string -> option string)
    (currentQuestion : PlanningQuestion) (a : Action) : option (string * string) :=
  match a with
  | ClickOption opt =>
      if isOther opt then None
      else Some (q_id currentQuestion, option_label opt)
  | SubmitOther =>
      if Js.truthy (otherText (q_id currentQuestion))
      then option_map (fun t => (q_id currentQuestion, String.append "Other: " t))
                      (otherText (q_id currentQuestion))
      else None
  | SaveAnswer =>
      if Js.truthy (otherText (q_id currentQuestion))
      then option_map (fun t => (q_id currentQuestion, t))
                      (otherText (q_id currentQuestion))
      else None
  end.

End Tab.

(* ================================================================== *)
(** ** More specification-side notions *)

From Stdlib Require Import Permutation.

(** The answer call for a question identifier and a value. *)
Definition answer_call (taskId questionId value : string) (w : World)
  : Response PlanningQuestion * World :=
  respond (AnswerRoute.POST taskId
             (Some (AnswerRoute.mkBody (Some questionId) (Some value)))) w.

(** One answer call after the other, for (identifier, value) pairs. *)
Definition answer_all (taskId : string) (answers : list (string * string))
    (w : World) : World :=
  fold_left (fun w p => snd (answer_call taskId (fst p) (snd p) w)) answers w.

(** [n] is the first position of [xs] whose element satisfies [p]. *)
Definition is_first {A} (p : A -> nat -> bool) (xs : list A) (n : nat) : Prop :=
  (exists x, nth_error xs n = Some x /\ p x n = true)
  /\ forall m x, (m < n)%nat -> nth_error xs m = Some x -> p x m = false.

(** The questions with their positions. *)
Definition indexed (qs : list PlanningQuestion) : list Tab.Indexed :=
  combine qs (seq 0 (List.length qs)).

(** The entries listed under a category ([[]] when it has no group). *)
Definition group_of (c : PlanningCategory)
    (groups : list (PlanningCategory * list Tab.Indexed)) : list Tab.Indexed :=
  match find (fun g => Tab.category_eqb c (fst g)) groups with
  | Some g => snd g
  | None => []
  end.

(** No text typed into any input. *)
Definition no_text : string -> option string := fun _ => None.

(** What the update statement does to one record. *)
Definition updated (value now questionId : string) (q : PlanningQuestion)
  : PlanningQuestion :=
  if String.eqb (q_id q) questionId then Sql.set_answer value now q else q.

(** A question is multiple choice exactly when it has a non-empty choice
    list. *)
Definition kind_matches_choices (q : PlanningQuestion) : Prop :=
  match q_options q with
  | Some (_ :: _) => q_question_type q = multiple_choice
  | _ => q_question_type q = text
  end.

(** Sort positions are unique within a task. *)
Definition sort_positions_unique (d : Db) : Prop :=
  forall taskId, NoDup (map q_sort_order (questions_of d taskId)).

(** Question identifiers are unique. *)
Definition ids_unique (d : Db) : Prop :=
  NoDup (map q_id (planning_questions d)).

(** The list is in non-decreasing sort order. *)
Fixpoint in_sort_order (l : list PlanningQuestion) : Prop :=
  match l with
  | [] => True
  | q :: rest =>
      (forall x, In x rest -> q_sort_order q <= q_sort_order x)
      /\ in_sort_order rest
  end.

(** The number of occurrences of a record in a list. *)
Definition occurrences (P : PlanningQuestion -> bool) (l : list PlanningQuestion)
  : nat :=
  List.length (filter P l).

(** The percentage is between 0 and 100, is 0 only when nothing is
    answered, and does not drop when one more question is answered. *)
Definition progress_shape (a t : Z) : bool :=
  let p := percentage_of a t in
  let p' := percentage_of (a + 1) t in
  (0 <=? p) && (p <=? 100) && Bool.eqb (p =? 0) (a =? 0)
  && ((a =? t) || (p <=? p')).

Module Sample2.

(** Two tasks, the first with its generated questions. *)
Definition two_tasks : World :=
  mkWorld (mkDb (tasks (db Sample.generated) ++ [mkTask "task-2" "inbox"])
                (planning_questions (db Sample.generated)) [])
          Sample.now Sample.ids 16.

(** The state the tab holds for the first task after generation. *)
Definition generated_state : PlanningState :=
  mkState (Sql.select_questions "task-1" (db Sample.generated)) None
          (mkProgress 16 0 0) false.

(** The first question answered with a free text under "Other". *)
Definition other_answered : PlanningQuestion :=
  Sql.set_answer "Other: a newsletter" Sample.now Sample.first_question.

Definition other_option : PlanningQuestionOption := mkOption "E" "Other".
Definition leads_option : PlanningQuestionOption :=
  mkOption "A" "Generate leads/sales".

End Sample2.

(* ------------------------------------------------------------------ *)
(** ** The rounding rules of the progress calculator's description *)




Module Sample3.


(** A store that holds a Spec for a task without questions. *)
Definition spec_without_questions : World :=
  mkWorld (mkDb [mkTask "task-1" "inbox"] []
                [mkSpec "spec-1" "task-1" "# Spec"])
          Sample.now Sample.ids 0.

End Sample3.

(* ================================================================== *)
(** * Properties *)

(* ------------------------------------------------------------------ *)
(** ** Progress and rounding *)

Section Progress.

Lemma forall_upto_sound (p : Z -> bool) :
  forall n, forall_upto n p = true ->
  forall z, 0 <= z <= Z.of_nat n -> p z = true.
Proof.
  induction n as [|k IH]; intros Hall z Hz.
  - simpl in Hall. replace z with 0 by lia. exact Hall.
  - cbn [forall_upto] in Hall. apply andb_true_iff in Hall as [Hk Hrest].
    destruct (Z.eq_dec z (Z.of_nat (S k))) as [->|Hne]; [exact Hk|].
    apply IH; [exact Hrest | lia].
Qed.

Lemma forall_counts_sound (p : Z -> Z -> bool) (n : nat) :
  forall_counts n p = true ->
  forall a t, 0 < t <= Z.of_nat n -> 0 <= a <= t -> p a t = true.
Proof.
  intros Hall a t Ht Ha. unfold forall_counts in Hall.
  pose proof (forall_upto_sound _ _ Hall t ltac:(lia)) as H.
  apply orb_true_iff in H as [H|H].
  - apply Z.eqb_eq in H. lia.
  - apply (forall_upto_sound _ _ H a). rewrite Z2Nat.id; lia.
Qed.

Lemma full_iff_all_below_200 : forall_counts 199 full_iff_all = true.
Proof. vm_compute. reflexivity. Qed.


Lemma percentage_full_iff (a t : Z) :
  0 < t < 200 -> 0 <= a <= t -> (percentage_of a t = 100 <-> a = t).
Proof.
  intros Ht Ha.
  pose proof (forall_counts_sound _ _ full_iff_all_below_200 a t
                ltac:(simpl; lia) Ha) as H.
  unfold full_iff_all in H. apply Bool.eqb_prop in H.
  rewrite <- Z.eqb_eq, H. apply Z.eqb_eq.
Qed.




(** [Math_round] is floor (x + 1/2) of the exact value [sm * 2^e]. *)
Lemma Math_round_finite (x : Js.number) s m e :
  FloatOps.Prim2SF x = SpecFloat.S754_finite s m e ->
  let sm := if s then Z.neg m else Z.pos m in
  let r := Js.Math_round x in
  (0 <= e -> r = sm * 2 ^ e)
  /\ (e < 0 -> (2 * r - 1) * 2 ^ (- e) <= 2 * sm < (2 * r + 1) * 2 ^ (- e)).
Proof.
  intros Hx sm r. subst r. unfold Js.Math_round. rewrite Hx. fold sm.
  destruct (Z.leb_spec 0 e) as [He|He]; split; intros He'; try lia.
  assert (Hpow : 2 ^ (1 - e) = 2 * 2 ^ (- e)).
  { replace (1 - e) with (Z.succ (- e)) by lia. apply Z.pow_succ_r. lia. }
  assert (Hpos : 0 < 2 ^ (- e)) by (apply Z.pow_pos_nonneg; lia).
  pose proof (Z.mul_div_le (2 * sm + 2 ^ (- e)) (2 ^ (1 - e)) ltac:(lia)) as Hlo.
  pose proof (Z.mul_succ_div_gt (2 * sm + 2 ^ (- e)) (2 ^ (1 - e)) ltac:(lia)) as Hhi.
  rewrite Hpow in *. nia.
Qed.

Example Math_round_half_up :
  Js.Math_round (PrimFloat.div (Js.of_Z 5) (Js.of_Z 2)) = 3
  /\ Js.Math_round (PrimFloat.opp (PrimFloat.div (Js.of_Z 5) (Js.of_Z 2))) = -2
  /\ Js.Math_round (PrimFloat.div (Js.of_Z 199) (Js.of_Z 2)) = 100
  /\ Js.Math_round (PrimFloat.div (Js.of_Z 7) (Js.of_Z 5)) = 1.
Proof. vm_compute. repeat split. Qed.


Lemma count_answered_filter (qs : list PlanningQuestion) :
  Z.of_nat (List.length (filter (fun q => Js.truthy (q_answer q)) qs))
  = count_answered qs.
Proof.
  induction qs as [|q rest IH]; [reflexivity|].
  cbn [filter count_answered].
  destruct (q_answer q) as [[|c s]|]; cbn [Js.truthy Js.truthy_string String.eqb negb];
    try exact IH.
  cbn [List.length]. rewrite Nat2Z.inj_succ, IH. lia.
Qed.

Lemma count_answered_bounds (qs : list PlanningQuestion) :
  0 <= count_answered qs <= Z.of_nat (List.length qs).
Proof.
  induction qs as [|q rest IH]; [simpl; lia|].
  cbn [count_answered List.length]. rewrite Nat2Z.inj_succ.
  destruct (q_answer q) as [[|c s]|]; lia.
Qed.

Lemma answered_le_total (qs : list PlanningQuestion) :
  let p := PlanningRoute.calculate_progress qs in
  0 <= answered p <= total p.
Proof.
  cbn. rewrite count_answered_filter. apply count_answered_bounds.
Qed.

End Progress.

(** C1 (as amended): for every question set with fewer than 200 questions
    (and at least one), the percentage of the read model is 100 exactly
    when every question is answered, and the planning tab then shows the
    lock button of an unlocked task exactly when every question is
    answered. *)
Theorem percentage_100_iff_all_answered :
  forall (qs : list PlanningQuestion) (sp : option PlanningSpec),
    (0 < List.length qs < 200)%nat ->
    let st := mkState qs sp (PlanningRoute.calculate_progress qs) (is_some sp) in
    (percentage (progress st) = 100 <-> answered (progress st) = total (progress st))
    /\ (sp = None ->
        (PlanningTab.PlanningTab false (Some st) = PlanningTab.Questions true
         <-> answered (progress st) = total (progress st))).
Proof.
  intros qs sp Hlen st.
  assert (Hiff : percentage (progress st) = 100
                 <-> answered (progress st) = total (progress st)).
  { pose proof (answered_le_total qs) as Hb. cbn in Hb |- *.
    apply percentage_full_iff; lia. }
  split; [exact Hiff|].
  intros ->. rewrite <- Hiff. unfold PlanningTab.PlanningTab.
  cbn [questions isLocked is_some is_none negb spec progress st].
  destruct (Z.eqb_spec (Z.of_nat (List.length qs)) 0) as [H0|_]; [lia|].
  split.
  - intros H. injection H as H. now apply Z.eqb_eq.
  - intros H. cbn [progress] in H. rewrite H. reflexivity.
Qed.

Lemma percentage_100_iff_all_answered_witness :
  (0 < List.length Sample.one_of_three < 200)%nat /\
  (percentage (PlanningRoute.calculate_progress Sample.one_of_three) = 100
   <-> answered (PlanningRoute.calculate_progress Sample.one_of_three)
       = total (PlanningRoute.calculate_progress Sample.one_of_three)).
Proof.
  assert (H : (0 < List.length Sample.one_of_three < 200)%nat) by (simpl; lia).
  split; [exact H|].
  exact (proj1 (percentage_100_iff_all_answered Sample.one_of_three None H)).
Defined.

(** C1, as first stated, fails: with 199 of 200 questions answered the
    quotient times 100 is 99.5, which [Math.round] takes to 100; the
    planning tab shows the lock button although one question is open. *)
Lemma percentage_100_with_open_question :
  let p := PlanningRoute.calculate_progress Sample.all_but_one in
  0 < total p /\ 0 <= answered p <= total p /\
  percentage p = 100 /\ answered p <> total p /\
  PlanningTab.PlanningTab false
    (Some (mkState Sample.all_but_one None p false))
  = PlanningTab.Questions true.
Proof. vm_compute. repeat split; congruence. Qed.




(* ------------------------------------------------------------------ *)
(** ** The queries, against the specification-side notions *)

Section Queries.

Lemma find_none_iff {A} (f : A -> bool) (l : list A) :
  find f l = None <-> (forall x, In x l -> f x = false).
Proof.
  split; [apply find_none|].
  induction l as [|a l IH]; intros H; [reflexivity|].
  cbn [find]. rewrite (H a (or_introl eq_refl)).
  apply IH. intros x Hx. apply H. now right.
Qed.

Lemma select_task_none (d : Db) (taskId : string) :
  Sql.select_task taskId d = None <-> ~ task_exists d taskId.
Proof.
  unfold Sql.select_task, task_exists. rewrite find_none_iff. split.
  - intros H (t & Hin & Heq). specialize (H t Hin).
    apply String.eqb_neq in H. contradiction.
  - intros H t Hin. apply String.eqb_neq. intros Heq. apply H. now exists t.
Qed.

Lemma select_spec_none (d : Db) (taskId : string) :
  Sql.select_spec taskId d = None <-> ~ has_spec d taskId.
Proof.
  unfold Sql.select_spec, has_spec. rewrite find_none_iff. split.
  - intros H (s & Hin & Heq). specialize (H s Hin).
    apply String.eqb_neq in H. contradiction.
  - intros H s Hin. apply String.eqb_neq. intros Heq. apply H. now exists s.
Qed.

Lemma select_question_of_task_none (d : Db) (questionId taskId : string) :
  Sql.select_question_of_task questionId taskId d = None
  <-> (forall q, In q (planning_questions d) ->
                 q_id q = questionId -> q_task_id q <> taskId).
Proof.
  unfold Sql.select_question_of_task. rewrite find_none_iff. split.
  - intros H q Hin Hid Htask. specialize (H q Hin).
    rewrite Hid, Htask, !String.eqb_refl in H. discriminate.
  - intros H q Hin. apply andb_false_iff.
    destruct (String.eqb_spec (q_id q) questionId) as [Hid|]; [right|now left].
    apply String.eqb_neq. now apply H.
Qed.

Lemma count_questions_zero (d : Db) (taskId : string) :
  Sql.count_questions taskId d = 0 <-> questions_of d taskId = [].
Proof.
  unfold Sql.count_questions, questions_of.
  destruct (filter _ _); simpl; split; intros H; try reflexivity;
    try discriminate; lia.
Qed.

Lemma truthy_nonempty (s : string) : s <> "" -> Js.truthy (Some s) = true.
Proof.
  intros H. apply String.eqb_neq in H.
  unfold Js.truthy, Js.truthy_string. now rewrite H.
Qed.

Lemma truthy_inv (v : option string) :
  Js.truthy v = true -> exists s, v = Some s /\ s <> "".
Proof.
  destruct v as [s|]; unfold Js.truthy, Js.truthy_string; [|discriminate].
  destruct (String.eqb_spec s ""); [discriminate|]. intros _. now exists s.
Qed.

(** The update statement record by record: identifiers stay, so the row
    a later [SELECT ... WHERE id = ?] finds is the updated first row. *)
Lemma select_question_update (value now questionId : string) (d : Db) :
  Sql.select_question questionId (Sql.update_answer value now questionId d)
  = option_map (Sql.set_answer value now) (Sql.select_question questionId d).
Proof.
  unfold Sql.select_question, Sql.update_answer. cbn [planning_questions].
  induction (planning_questions d) as [|q l IH]; [reflexivity|].
  cbn [map find].
  destruct (String.eqb_spec (q_id q) questionId) as [Hid|Hne].
  - cbn [Sql.set_answer q_id]. apply String.eqb_eq in Hid. now rewrite Hid.
  - apply String.eqb_neq in Hne. now rewrite Hne.
Qed.

Lemma select_question_of_task_some (d : Db) (questionId taskId : string) q :
  Sql.select_question_of_task questionId taskId d = Some q ->
  exists q1, Sql.select_question questionId d = Some q1 /\ q_id q1 = questionId.
Proof.
  intros H. apply find_some in H as [Hin Hq].
  apply andb_true_iff in Hq as [Hid _].
  destruct (Sql.select_question questionId d) as [q1|] eqn:E.
  - exists q1. split; [reflexivity|].
    apply find_some in E as [_ E]. now apply String.eqb_eq.
  - unfold Sql.select_question in E.
    rewrite (find_none _ _ E q Hin) in Hid. discriminate.
Qed.

Lemma update_answer_frame (value now questionId : string) (d : Db) :
  Forall2 (fun old new =>
             same_but_answer old new /\ (q_id old <> questionId -> new = old))
          (planning_questions d)
          (planning_questions (Sql.update_answer value now questionId d)).
Proof.
  unfold Sql.update_answer. cbn [planning_questions].
  induction (planning_questions d) as [|q l IH]; cbn [map]; constructor;
    [|exact IH].
  destruct (String.eqb_spec (q_id q) questionId) as [Hid|Hne].
  - split; [repeat split|contradiction].
  - split; [repeat split|reflexivity].
Qed.

End Queries.

(* ------------------------------------------------------------------ *)
(** ** The answer route *)

Section Answer.

Variables (w : World) (taskId : string).

(** A falsy [questionId] or [answer] ends the request at once. *)
Lemma answer_invalid (questionId answer : option string) :
  Js.truthy questionId = false \/ Js.truthy answer = false ->
  respond (AnswerRoute.POST taskId
             (Some (AnswerRoute.mkBody questionId answer))) w
  = (InvalidInput, w).
Proof.
  intros H. unfold AnswerRoute.POST, respond, bind, when.
  cbn [AnswerRoute.questionId AnswerRoute.answer].
  destruct H as [-> | ->]; [reflexivity|].
  rewrite orb_true_r. reflexivity.
Qed.

(** The remaining cases of the route, one after the other. *)
Lemma answer_valid (questionId value : string) :
  questionId <> "" -> value <> "" ->
  respond (AnswerRoute.POST taskId
             (Some (AnswerRoute.mkBody (Some questionId) (Some value)))) w
  = match Sql.select_question_of_task questionId taskId (db w) with
    | None => (NotFound, w)
    | Some _ =>
        match Sql.select_spec taskId (db w) with
        | Some _ => (Locked, w)
        | None =>
            let w' := mkWorld (Sql.update_answer value (clock w) questionId (db w))
                              (clock w) (entropy w) (drawn w) in
            match Sql.select_question questionId (db w') with
            | Some u => (Json (parse_options u), w')
            | None => (Error 500 "Question not found after update", w')
            end
        end
    end.
Proof.
  intros Hq Hv. unfold AnswerRoute.POST, respond, bind, when, query, run_stmt, ret.
  cbn [AnswerRoute.questionId AnswerRoute.answer].
  rewrite (truthy_nonempty _ Hq), (truthy_nonempty _ Hv). cbn [negb orb].
  destruct (Sql.select_question_of_task questionId taskId (db w));
    cbn [is_none]; [|reflexivity].
  destruct (Sql.select_spec taskId (db w)); cbn [is_some is_none negb];
    [reflexivity|].
  cbn [db].
  destruct (Sql.select_question questionId
              (Sql.update_answer value (clock w) questionId (db w)));
    reflexivity.
Qed.

(** A request that succeeds carried a non-empty identifier and value. *)
Lemma answer_success_inv (body : option AnswerRoute.Body) r w' :
  respond (AnswerRoute.POST taskId body) w = (Json r, w') ->
  exists questionId value,
    body = Some (AnswerRoute.mkBody (Some questionId) (Some value))
    /\ questionId <> "" /\ value <> "".
Proof.
  destruct body as [[qid ans]|]; [|discriminate].
  destruct (Js.truthy qid) eqn:Eq.
  - destruct (Js.truthy ans) eqn:Ea.
    + apply truthy_inv in Eq as (q & -> & Hq).
      apply truthy_inv in Ea as (a & -> & Ha).
      intros _. now exists q, a.
    + rewrite answer_invalid by now right. discriminate.
  - rewrite answer_invalid by now left. discriminate.
Qed.

End Answer.


(** C2: once the task has a Spec, answering any existing question of the
    task is refused as [Locked] for every value the answer operation takes
    (a non-empty one), the value already stored included; the empty value
    is refused as [InvalidInput], as for any task.  In both cases the
    stored question records, and the rest of the world, stay as they
    were. *)
Theorem answer_after_lock_is_refused :
  forall (w : World) (taskId : string) (q : PlanningQuestion) (value : string),
    In q (planning_questions (db w)) -> q_task_id q = taskId ->
    q_id q <> "" -> has_spec (db w) taskId ->
    (value <> "" ->
     respond (AnswerRoute.POST taskId
                (Some (AnswerRoute.mkBody (Some (q_id q)) (Some value)))) w
     = (Locked, w))
    /\ (value = "" ->
        respond (AnswerRoute.POST taskId
                   (Some (AnswerRoute.mkBody (Some (q_id q)) (Some value)))) w
        = (InvalidInput, w))
    /\ planning_questions
         (db (snd (respond (AnswerRoute.POST taskId
                              (Some (AnswerRoute.mkBody (Some (q_id q))
                                                        (Some value)))) w)))
       = planning_questions (db w)
    /\ snd (respond (AnswerRoute.POST taskId
                       (Some (AnswerRoute.mkBody (Some (q_id q)) (Some value)))) w)
       = w.
Proof.
  intros w taskId q value Hin Htask Hid Hspec.
  assert (Hlocked : value <> "" ->
            respond (AnswerRoute.POST taskId
                       (Some (AnswerRoute.mkBody (Some (q_id q)) (Some value)))) w
            = (Locked, w)).
  { intros Hv. rewrite answer_valid by assumption.
    destruct (Sql.select_question_of_task (q_id q) taskId (db w)) eqn:Eq.
    - destruct (Sql.select_spec taskId (db w)) eqn:Es; [reflexivity|].
      apply select_spec_none in Es. contradiction.
    - exfalso.
      exact (proj1 (select_question_of_task_none _ _ _) Eq q Hin eq_refl Htask). }
  assert (Hempty : value = "" ->
            respond (AnswerRoute.POST taskId
                       (Some (AnswerRoute.mkBody (Some (q_id q)) (Some value)))) w
            = (InvalidInput, w)).
  { intros ->. apply answer_invalid. right. reflexivity. }
  split; [exact Hlocked|]. split; [exact Hempty|].
  destruct (String.eqb_spec value "") as [He|Hv].
  - rewrite (Hempty He). split; reflexivity.
  - rewrite (Hlocked Hv). split; reflexivity.
Qed.

(** The stored value of an answered question, sent again after the lock. *)
Lemma answer_after_lock_is_refused_witness :
  In Sample.first_answered (planning_questions (db Sample.locked))
  /\ q_answer Sample.first_answered = Some "No rush"
  /\ respond (AnswerRoute.POST "task-1"
                (Sample.answer_body (q_id Sample.first_answered) "No rush"))
             Sample.locked
     = (Locked, Sample.locked).
Proof.
  assert (Hin : In Sample.first_answered (planning_questions (db Sample.locked)))
    by (vm_compute; left; reflexivity).
  split; [exact Hin|]. split; [reflexivity|].
  refine (proj1 (answer_after_lock_is_refused Sample.locked "task-1"
                   Sample.first_answered "No rush" Hin _ _ _) _).
  - reflexivity.
  - vm_compute. discriminate.
  - exists (mkSpec "spec-1" "task-1" "# Spec").
    split; [vm_compute; left; reflexivity | reflexivity].
  - discriminate.
Defined.

(** C6: before the lock, answering an existing question of the task with a
    non-empty value succeeds whatever the question's kind, choices and
    previous answer are: every record with that identifier now holds the
    value verbatim and the current time, the returned record shows them,
    and a later answer overwrites them in the same way. *)
Theorem answer_before_lock_overwrites :
  forall (w : World) (taskId : string) (q : PlanningQuestion) (value : string),
    In q (planning_questions (db w)) -> q_task_id q = taskId ->
    q_id q <> "" -> ~ has_spec (db w) taskId -> value <> "" ->
    exists r w',
      respond (AnswerRoute.POST taskId
                 (Some (AnswerRoute.mkBody (Some (q_id q)) (Some value)))) w
      = (Json r, w')
      /\ q_id r = q_id q /\ q_answer r = Some value
      /\ q_answered_at r = Some (clock w)
      /\ In (Sql.set_answer value (clock w) q) (planning_questions (db w'))
      /\ (forall x, In x (planning_questions (db w')) -> q_id x = q_id q ->
                    q_answer x = Some value /\ q_answered_at x = Some (clock w))
      /\ (forall later value2, value2 <> "" ->
            exists r2 w2,
              respond (AnswerRoute.POST taskId
                         (Some (AnswerRoute.mkBody (Some (q_id q)) (Some value2))))
                      (mkWorld (db w') later (entropy w') (drawn w'))
              = (Json r2, w2)
              /\ q_answer r2 = Some value2 /\ q_answered_at r2 = Some later
              /\ In (Sql.set_answer value2 later q) (planning_questions (db w2))).
Proof.
  assert (Once : forall (w : World) taskId q value,
    In q (planning_questions (db w)) -> q_task_id q = taskId ->
    q_id q <> "" -> ~ has_spec (db w) taskId -> value <> "" ->
    exists r,
      respond (AnswerRoute.POST taskId
                 (Some (AnswerRoute.mkBody (Some (q_id q)) (Some value)))) w
      = (Json r, mkWorld (Sql.update_answer value (clock w) (q_id q) (db w))
                         (clock w) (entropy w) (drawn w))
      /\ q_id r = q_id q /\ q_answer r = Some value
      /\ q_answered_at r = Some (clock w)).
  { intros w taskId q value Hin Htask Hid Hspec Hv.
    rewrite answer_valid by assumption.
    destruct (Sql.select_question_of_task (q_id q) taskId (db w)) eqn:Eq.
    2:{ exfalso.
        exact (proj1 (select_question_of_task_none _ _ _) Eq q Hin eq_refl Htask). }
    apply select_spec_none in Hspec. rewrite Hspec. cbn zeta. cbn [db].
    rewrite select_question_update.
    apply select_question_of_task_some in Eq as (q1 & -> & Hq1).
    cbn [option_map]. eexists. split; [reflexivity|].
    repeat split. exact Hq1. }
  assert (Stored : forall value now q (d : Db),
    In q (planning_questions d) ->
    In (Sql.set_answer value now q)
       (planning_questions (Sql.update_answer value now (q_id q) d))).
  { intros value now q d Hin. unfold Sql.update_answer. cbn [planning_questions].
    apply in_map_iff. exists q. now rewrite String.eqb_refl. }
  intros w taskId q value Hin Htask Hid Hspec Hv.
  destruct (Once w taskId q value Hin Htask Hid Hspec Hv) as (r & Hr & Hrid & Hra & Hrt).
  eexists r, _. split; [exact Hr|].
  split; [exact Hrid|]. split; [exact Hra|]. split; [exact Hrt|].
  cbn [db]. split; [now apply Stored|]. split.
  - intros x Hx Hxid. unfold Sql.update_answer in Hx. cbn [planning_questions] in Hx.
    apply in_map_iff in Hx as (y & Hy & _).
    destruct (String.eqb_spec (q_id y) (q_id q)) as [_|Hne].
    + subst x. now split.
    + subst x. contradiction.
  - intros later value2 Hv2.
    destruct (Once (mkWorld (Sql.update_answer value (clock w) (q_id q) (db w))
                            later (entropy w) (drawn w))
                   taskId (Sql.set_answer value (clock w) q) value2)
      as (r2 & Hr2 & _ & Hra2 & Hrt2); try assumption.
    + cbn [db]. now apply Stored.
    + cbn [Sql.set_answer q_id] in Hr2. cbn [entropy clock db drawn] in Hr2 |- *.
      eexists r2, _. split; [exact Hr2|]. split; [exact Hra2|].
      split; [exact Hrt2|]. cbn [db].
      pose proof (Stored value2 later (Sql.set_answer value (clock w) q)
                    (Sql.update_answer value (clock w) (q_id q) (db w))
                    (Stored value (clock w) q (db w) Hin)) as H.
      exact H.
Qed.

Lemma answer_before_lock_overwrites_witness :
  exists r w',
    respond (AnswerRoute.POST "task-1"
               (Sample.answer_body (q_id Sample.first_question) "Other: a newsletter"))
            Sample.generated
    = (Json r, w')
    /\ q_answer r = Some "Other: a newsletter".
Proof.
  destruct (answer_before_lock_overwrites Sample.generated "task-1"
              Sample.first_question "Other: a newsletter")
    as (r & w' & H & _ & Ha & _).
  - vm_compute. left. reflexivity.
  - reflexivity.
  - vm_compute. discriminate.
  - intros (s & Hs & _). vm_compute in Hs. exact Hs.
  - discriminate.
  - exists r, w'. split; [exact H | exact Ha].
Defined.

(** C7 (as amended): an answer call whose question identifier names no
    question of the store, or a question of another task, is refused and
    writes nothing: as [NotFound] when the identifier and the value are
    both non-empty, as [InvalidInput] when the identifier or the value is
    empty. *)
Theorem answer_unknown_question_not_found :
  forall (w : World) (taskId questionId value : string),
    (forall q, In q (planning_questions (db w)) ->
               q_id q = questionId -> q_task_id q <> taskId) ->
    (questionId <> "" -> value <> "" ->
     respond (AnswerRoute.POST taskId
                (Some (AnswerRoute.mkBody (Some questionId) (Some value)))) w
     = (NotFound, w))
    /\ (questionId = "" \/ value = "" ->
        respond (AnswerRoute.POST taskId
                   (Some (AnswerRoute.mkBody (Some questionId) (Some value)))) w
        = (InvalidInput, w))
    /\ snd (respond (AnswerRoute.POST taskId
                       (Some (AnswerRoute.mkBody (Some questionId) (Some value)))) w)
       = w.
Proof.
  intros w taskId questionId value Hnone.
  apply select_question_of_task_none in Hnone.
  assert (Hmissing : questionId <> "" -> value <> "" ->
            respond (AnswerRoute.POST taskId
                       (Some (AnswerRoute.mkBody (Some questionId) (Some value)))) w
            = (NotFound, w)).
  { intros Hq Hv. rewrite answer_valid by assumption. rewrite Hnone. reflexivity. }
  assert (Hempty : questionId = "" \/ value = "" ->
            respond (AnswerRoute.POST taskId
                       (Some (AnswerRoute.mkBody (Some questionId) (Some value)))) w
            = (InvalidInput, w)).
  { intros [-> | ->]; apply answer_invalid; [left | right]; reflexivity. }
  split; [exact Hmissing|]. split; [exact Hempty|].
  destruct (String.eqb_spec questionId "") as [Hq|Hq].
  - rewrite (Hempty (or_introl Hq)). reflexivity.
  - destruct (String.eqb_spec value "") as [Hv|Hv].
    + rewrite (Hempty (or_intror Hv)). reflexivity.
    + rewrite (Hmissing Hq Hv). reflexivity.
Qed.

(** A question of task-1 asked for under another task. *)
Lemma answer_unknown_question_not_found_witness :
  In Sample.first_question (planning_questions (db Sample.generated))
  /\ respond (AnswerRoute.POST "task-2"
                (Sample.answer_body (q_id Sample.first_question) "Provide information"))
             Sample.generated
     = (NotFound, Sample.generated).
Proof.
  split; [vm_compute; left; reflexivity|].
  refine (proj1 (answer_unknown_question_not_found Sample.generated "task-2"
                   (q_id Sample.first_question) "Provide information" _) _ _).
  - intros q Hin _.
    assert (Hall : forallb (fun q => String.eqb (q_task_id q) "task-1")
                           (planning_questions (db Sample.generated)) = true)
      by (vm_compute; reflexivity).
    rewrite forallb_forall in Hall. specialize (Hall q Hin).
    apply String.eqb_eq in Hall. rewrite Hall. discriminate.
  - vm_compute. discriminate.
  - discriminate.
Defined.

(** C7, as first stated, fails for the empty question identifier: no
    stored question has it and the value sent is not empty, yet the call is
    refused as invalid input, not as [NotFound]. *)
Lemma answer_empty_question_id_is_invalid :
  (forall q, In q (planning_questions (db Sample.generated)) -> q_id q <> "")
  /\ fst (respond (AnswerRoute.POST "task-1"
                     (Sample.answer_body "" "Provide information"))
                  Sample.generated)
     = InvalidInput
  /\ InvalidInput <> NotFound.
Proof.
  split.
  - intros q Hin.
    assert (Hall : forallb (fun q => negb (String.eqb (q_id q) ""))
                           (planning_questions (db Sample.generated)) = true)
      by (vm_compute; reflexivity).
    rewrite forallb_forall in Hall. specialize (Hall q Hin).
    apply negb_true_iff in Hall. apply String.eqb_neq. exact Hall.
  - split; [vm_compute; reflexivity | discriminate].
Qed.

(** C10: a successful answer call changes the [answer] and [answered_at]
    columns of the records with the given identifier and nothing else: the
    other columns of those records, every other question record, their
    number and order, the tasks, the specs, the clock and the identifier
    source are as before. *)
Theorem answer_frame :
  forall (w w' : World) (taskId : string) (body : option AnswerRoute.Body)
         (r : PlanningQuestion),
    respond (AnswerRoute.POST taskId body) w = (Json r, w') ->
    exists questionId value,
      body = Some (AnswerRoute.mkBody (Some questionId) (Some value))
      /\ tasks (db w') = tasks (db w)
      /\ planning_specs (db w') = planning_specs (db w)
      /\ clock w' = clock w /\ entropy w' = entropy w /\ drawn w' = drawn w
      /\ Forall2 (fun old new =>
                    same_but_answer old new
                    /\ (q_id old <> questionId -> new = old)
                    /\ (q_id old = questionId ->
                        q_answer new = Some value
                        /\ q_answered_at new = Some (clock w)))
                 (planning_questions (db w)) (planning_questions (db w')).
Proof.
  intros w w' taskId body r H.
  destruct (answer_success_inv _ _ _ _ _ H) as (questionId & value & -> & Hq & Hv).
  exists questionId, value. split; [reflexivity|].
  rewrite answer_valid in H by assumption.
  destruct (Sql.select_question_of_task questionId taskId (db w));
    [|discriminate].
  destruct (Sql.select_spec taskId (db w)); [discriminate|].
  cbn zeta in H. cbn [db] in H.
  destruct (Sql.select_question questionId
              (Sql.update_answer value (clock w) questionId (db w)));
    [|discriminate].
  injection H as _ <-. cbn [db clock entropy drawn].
  repeat (split; [reflexivity|]).
  unfold Sql.update_answer. cbn [planning_questions].
  induction (planning_questions (db w)) as [|q l IH]; cbn [map]; constructor;
    [|exact IH].
  destruct (String.eqb_spec (q_id q) questionId) as [Hid|Hne].
  - split; [repeat split|]. split; [contradiction|]. intros _. now split.
  - split; [repeat split|]. split; [reflexivity|contradiction].
Qed.

Lemma answer_frame_witness :
  exists r w',
    respond (AnswerRoute.POST "task-1"
               (Sample.answer_body (q_id Sample.first_question) "Collect user data"))
            Sample.generated
    = (Json r, w')
    /\ tasks (db w') = tasks (db Sample.generated)
    /\ planning_specs (db w') = planning_specs (db Sample.generated).
Proof.
  eexists _, _. split; [vm_compute; reflexivity|].
  destruct (answer_frame Sample.generated _ "task-1"
              (Sample.answer_body (q_id Sample.first_question) "Collect user data")
              _ ltac:(vm_compute; reflexivity))
    as (qid & value & _ & Ht & Hs & _).
  split; [exact Ht | exact Hs].
Defined.

(* ------------------------------------------------------------------ *)
(** ** The generation loop *)

Section Generation.

Variable taskId : string.

Lemma generated_rows_app cts1 : forall cts2 s ids k,
  generated_rows taskId (cts1 ++ cts2) s ids k
  = generated_rows taskId cts1 s ids k
    ++ generated_rows taskId cts2 (s + Z.of_nat (List.length cts1)) ids
         (k + List.length cts1).
Proof.
  induction cts1 as [|[c t] rest IH]; intros cts2 s ids k.
  - cbn [app generated_rows List.length]. f_equal; lia.
  - cbn [app generated_rows List.length]. rewrite IH. cbn [app].
    do 3 f_equal; lia.
Qed.

Lemma generated_rows_length cts : forall s ids k,
  List.length (generated_rows taskId cts s ids k) = List.length cts.
Proof.
  induction cts as [|[c t] rest IH]; intros; cbn [generated_rows List.length];
    [reflexivity | now rewrite IH].
Qed.

(** The inner loop appends one row per template of the category and
    never returns early. *)
Lemma forEach_templates (c : PlanningCategory) (ts : list Template) :
  forall (s : Z) (w : World),
    forEach ts (PlanningRoute.insert_template taskId c) s w
    = (Value (s + Z.of_nat (List.length ts)),
       mkWorld (mkDb (tasks (db w))
                     (planning_questions (db w)
                        ++ generated_rows taskId (map (pair c) ts) s
                             (entropy w) (drawn w))
                     (planning_specs (db w)))
               (clock w) (entropy w) (drawn w + List.length ts)).
Proof.
  induction ts as [|t rest IH]; intros s w.
  - destruct w as [[ts qs ss] now ids k].
    cbn [forEach ret map generated_rows List.length db tasks planning_questions
         planning_specs clock entropy drawn].
    rewrite app_nil_r, Nat.add_0_r, Z.add_0_r. reflexivity.
  - cbn [forEach]. unfold bind at 1.
    unfold PlanningRoute.insert_template at 1, bind, randomUUID, run_stmt, ret.
    cbn [db clock entropy drawn]. rewrite IH.
    cbn [db clock entropy drawn tasks planning_questions planning_specs
         Sql.insert_question map generated_rows List.length].
    rewrite <- app_assoc. cbn [app].
    f_equal; [f_equal; lia | f_equal; lia].
Qed.

(** The outer loop does so category after category, the sort position
    running on. *)
Lemma forEach_categories (cs : list PlanningCategory) :
  forall (s : Z) (w : World),
    let cts := flat_map (fun c => map (pair c) (PlanningRoute.QUESTION_TEMPLATES c)) cs in
    forEach cs
      (fun category sortOrder =>
         forEach (PlanningRoute.QUESTION_TEMPLATES category)
                 (PlanningRoute.insert_template taskId category) sortOrder)
      s w
    = (Value (s + Z.of_nat (List.length cts)),
       mkWorld (mkDb (tasks (db w))
                     (planning_questions (db w)
                        ++ generated_rows taskId cts s (entropy w) (drawn w))
                     (planning_specs (db w)))
               (clock w) (entropy w) (drawn w + List.length cts)).
Proof.
  induction cs as [|c rest IH]; intros s w; cbn zeta.
  - destruct w as [[ts qs ss] now ids k].
    cbn [forEach ret flat_map generated_rows List.length db tasks
         planning_questions planning_specs clock entropy drawn].
    rewrite app_nil_r, Nat.add_0_r, Z.add_0_r. reflexivity.
  - cbn [forEach flat_map]. unfold bind at 1. rewrite forEach_templates.
    cbn zeta in IH. rewrite IH.
    cbn [db clock entropy drawn tasks planning_questions planning_specs].
    rewrite generated_rows_app, <- app_assoc, !length_app, !length_map.
    f_equal; [f_equal; lia | f_equal; lia].
Qed.

Lemma generated_rows_task cts : forall s ids k,
  filter (fun q => String.eqb (q_task_id q) taskId)
         (generated_rows taskId cts s ids k)
  = generated_rows taskId cts s ids k.
Proof.
  induction cts as [|[c t] rest IH]; intros; cbn [generated_rows filter];
    [reflexivity|].
  cbn [generated_row q_task_id]. rewrite String.eqb_refl. now rewrite IH.
Qed.

(** The generated rows are already in [sort_order] order. *)
Lemma generated_rows_ordered cts : forall s ids k,
  Sql.order_by_sort_order (generated_rows taskId cts s ids k)
  = generated_rows taskId cts s ids k.
Proof.
  induction cts as [|[c t] rest IH]; intros; [reflexivity|].
  cbn [generated_rows]. unfold Sql.order_by_sort_order in *.
  cbn [fold_right]. rewrite IH.
  destruct rest as [|[c' t'] rest']; [reflexivity|].
  cbn [generated_rows Sql.insert_by_sort_order generated_row q_sort_order].
  destruct (Z.leb_spec s (s + 1)); [reflexivity | lia].
Qed.

Lemma generated_rows_sort_order cts : forall s ids k,
  map q_sort_order (generated_rows taskId cts s ids k)
  = map (fun i => s + Z.of_nat i) (seq 0 (List.length cts)).
Proof.
  induction cts as [|[c t] rest IH]; intros; [reflexivity|].
  cbn [generated_rows map List.length seq generated_row q_sort_order].
  rewrite IH, <- seq_shift, map_map. f_equal; [lia|].
  apply map_ext. intros i. lia.
Qed.

Lemma parse_options_id (q : PlanningQuestion) : parse_options q = q.
Proof. destruct q as [? ? ? ? ? [o|] ? ? ?]; reflexivity. Qed.

Lemma map_parse_options (qs : list PlanningQuestion) :
  map parse_options qs = qs.
Proof.
  induction qs as [|q l IH]; [reflexivity|].
  cbn [map]. now rewrite parse_options_id, IH.
Qed.

(** The route, case by case. *)
Lemma generate_cases (w : World) :
  respond (PlanningRoute.POST taskId) w
  = match Sql.select_task taskId (db w) with
    | None => (TaskNotFound, w)
    | Some _ =>
        if 0 <? Sql.count_questions taskId (db w)
        then (AlreadyGenerated, w)
        else
          let d := Sql.update_task_status "planning" taskId (db w) in
          let rows := generated_rows taskId catalogue 0 (entropy w) (drawn w) in
          let d' := mkDb (tasks d) (planning_questions d ++ rows)
                         (planning_specs d) in
          let qs := Sql.select_questions taskId d' in
          (Json (mkState qs None
                         (mkProgress (Z.of_nat (List.length qs)) 0 0) false),
           mkWorld d' (clock w) (entropy w)
                   (drawn w + List.length catalogue))
    end.
Proof.
  unfold PlanningRoute.POST, respond.
  unfold bind at 1. unfold query at 1.
  destruct (Sql.select_task taskId (db w)); [|reflexivity].
  unfold bind at 1. unfold when at 1. cbn [is_none].
  unfold bind at 1. unfold query at 1.
  unfold bind at 1. unfold when at 1.
  destruct (0 <? Sql.count_questions taskId (db w)); [reflexivity|].
  unfold bind at 1. unfold run_stmt at 1.
  unfold bind at 1. rewrite forEach_categories.
  unfold bind, query, ret. cbn [db clock entropy drawn].
  rewrite map_parse_options. reflexivity.
Qed.

(** On a task without questions, the selection after the loop is the
    generated batch. *)
Lemma select_generated (ts : list Task) (qs : list PlanningQuestion)
    (ss : list PlanningSpec) (rows : list (PlanningCategory * Template)) s ids k :
  filter (fun q => String.eqb (q_task_id q) taskId) qs = [] ->
  Sql.select_questions taskId
    (mkDb ts (qs ++ generated_rows taskId rows s ids k) ss)
  = generated_rows taskId rows s ids k.
Proof.
  unfold Sql.select_questions. cbn [planning_questions].
  intros H. rewrite filter_app, H, generated_rows_task. cbn [app].
  apply generated_rows_ordered.
Qed.

(** A generate call that succeeds ran on an existing task without
    questions and returned the generated batch. *)
Lemma generate_success (w w' : World) (st : PlanningState) :
  respond (PlanningRoute.POST taskId) w = (Json st, w') ->
  task_exists (db w) taskId /\ questions_of (db w) taskId = []
  /\ questions st = generated_rows taskId catalogue 0 (entropy w) (drawn w)
  /\ Sql.select_questions taskId (db w') = questions st
  /\ planning_questions (db w') = planning_questions (db w) ++ questions st
  /\ planning_specs (db w') = planning_specs (db w)
  /\ progress st = mkProgress (Z.of_nat (List.length (questions st))) 0 0
  /\ isLocked st = false /\ spec st = None.
Proof.
  rewrite generate_cases. generalize catalogue. intros cts.
  destruct (Sql.select_task taskId (db w)) eqn:Et; [|discriminate].
  destruct (Z.ltb_spec 0 (Sql.count_questions taskId (db w))) as [|Hc];
    [discriminate|].
  assert (Hnone : questions_of (db w) taskId = []).
  { apply count_questions_zero. unfold Sql.count_questions in *. lia. }
  cbn zeta. rewrite select_generated by exact Hnone.
  intros H. injection H as <- <-. cbn [questions progress isLocked spec db].
  rewrite select_generated by exact Hnone.
  split; [|repeat split; try reflexivity; exact Hnone].
  apply find_some in Et as [Hin Heq]. apply String.eqb_eq in Heq.
  exists t. now split.
Qed.

End Generation.

Section GeneratedRows.

Variable taskId : string.

Lemma nth_error_seq_lt (start len n : nat) :
  (n < len)%nat -> nth_error (seq start len) n = Some (start + n)%nat.
Proof.
  revert start n. induction len as [|len IH]; intros start n Hn; [lia|].
  destruct n as [|n]; cbn [seq nth_error]; [f_equal; lia|].
  rewrite IH by lia. f_equal. lia.
Qed.

Lemma generated_rows_templates cts : forall s ids k,
  map (fun q => (q_category q, q_question q)) (generated_rows taskId cts s ids k)
  = map (fun ct => (fst ct, t_question (snd ct))) cts.
Proof.
  induction cts as [|[c t] rest IH]; intros; [reflexivity|].
  cbn [generated_rows map generated_row q_category q_question fst snd].
  now rewrite IH.
Qed.

Lemma generated_rows_unanswered cts : forall s ids k,
  Forall (fun q => q_task_id q = taskId /\ q_answer q = None
                   /\ q_answered_at q = None)
         (generated_rows taskId cts s ids k).
Proof.
  induction cts as [|[c t] rest IH]; intros; cbn [generated_rows];
    constructor; [now repeat split | apply IH].
Qed.

Lemma mapi_from_options (g : nat -> string) (labels : list string) :
  forall i,
    let choices := PlanningRoute.mapi_from (fun label idx => mkOption (g idx) label)
                                          i labels in
    List.length choices = List.length labels
    /\ map option_id choices = map g (seq i (List.length labels))
    /\ map option_label choices = labels.
Proof.
  induction labels as [|l rest IH]; intros i; [now repeat split|].
  cbn zeta. cbn [PlanningRoute.mapi_from List.length seq map option_id option_label].
  destruct (IH (S i)) as (Hlen & Hid & Hlabel).
  now rewrite Hlen, Hid, Hlabel.
Qed.

(** The identifiers of the choices are the letters from [A] on, the
    labels those of the template, in order. *)
Lemma choice_options_letters (labels : list string) :
  (List.length labels <= 26)%nat ->
  List.length (PlanningRoute.choice_options labels) = List.length labels
  /\ map option_id (PlanningRoute.choice_options labels)
     = firstn (List.length labels) alphabet
  /\ map option_label (PlanningRoute.choice_options labels) = labels.
Proof.
  intros Hk. unfold PlanningRoute.choice_options.
  destruct (mapi_from_options (fun idx => Js.String_fromCharCode (65 + idx))
                              labels 0) as (Hlen & Hid & Hlabel).
  split; [exact Hlen|]. split; [|exact Hlabel].
  rewrite Hid. remember (List.length labels) as n eqn:En. clear -Hk.
  do 27 (destruct n as [|n]; [reflexivity|]). lia.
Qed.

Lemma generated_rows_built_from cts :
  Forall (fun ct => match t_options (snd ct) with
                    | Some labels => (List.length labels <= 26)%nat
                    | None => True
                    end) cts ->
  forall s ids k, Forall2 built_from cts (generated_rows taskId cts s ids k).
Proof.
  induction 1 as [|[c t] rest Hsmall _ IH]; intros; cbn [generated_rows];
    constructor; [|apply IH].
  unfold built_from, generated_row.
  cbn [q_category q_question q_question_type q_options fst snd] in *.
  split; [reflexivity|]. split; [reflexivity|].
  destruct (t_options t) as [labels|]; cbn [is_some is_none negb option_map];
    [|now split].
  split; [reflexivity|]. exists (PlanningRoute.choice_options labels).
  split; [reflexivity|]. now apply choice_options_letters.
Qed.

Lemma catalogue_choices_small :
  Forall (fun ct => match t_options (snd ct) with
                    | Some labels => (List.length labels <= 26)%nat
                    | None => True
                    end) catalogue.
Proof. repeat constructor; cbn; lia. Qed.

End GeneratedRows.

(** C3: a generate call that succeeds returns, and has persisted, the
    questions of the catalogue in category order and template order within
    a category, with the sort positions 0, 1, ..., n-1 in that order (so
    strictly increasing across the whole batch), all unanswered. *)
Theorem generate_sort_positions :
  forall (w w' : World) (taskId : string) (st : PlanningState),
    respond (PlanningRoute.POST taskId) w = (Json st, w') ->
    let qs := questions st in
    map q_sort_order qs = map Z.of_nat (seq 0 (List.length qs))
    /\ map (fun q => (q_category q, q_question q)) qs
       = map (fun ct => (fst ct, t_question (snd ct))) catalogue
    /\ map q_category qs
       = [goal; goal; audience; audience; scope; scope; design; design; design;
          content; content; technical; technical; timeline;
          constraints; constraints]
    /\ Sql.select_questions taskId (db w') = qs
    /\ planning_questions (db w') = planning_questions (db w) ++ qs
    /\ Forall (fun q => q_task_id q = taskId /\ q_answer q = None
                        /\ q_answered_at q = None) qs
    /\ (forall i j qi qj,
          nth_error qs i = Some qi -> nth_error qs j = Some qj ->
          (i < j)%nat -> q_sort_order qi < q_sort_order qj).
Proof.
  intros w w' taskId st H.
  destruct (generate_success _ _ _ _ H)
    as (_ & _ & Hqs & Hsel & Hstored & _ & _ & _ & _).
  cbn zeta.
  assert (Hso : map q_sort_order (questions st)
                = map Z.of_nat (seq 0 (List.length (questions st)))).
  { rewrite Hqs, generated_rows_sort_order, generated_rows_length.
    apply map_ext. intros i. lia. }
  split; [exact Hso|].
  split; [rewrite Hqs; apply generated_rows_templates|].
  split.
  { transitivity (map fst (map (fun q => (q_category q, q_question q)) (questions st))).
    - rewrite map_map. reflexivity.
    - rewrite Hqs, generated_rows_templates. reflexivity. }
  split; [exact Hsel|]. split; [exact Hstored|].
  split; [rewrite Hqs; apply generated_rows_unanswered|].
  intros i j qi qj Hi Hj Hlt.
  assert (Hnth : forall n q, nth_error (questions st) n = Some q ->
                             q_sort_order q = Z.of_nat n).
  { intros n q Hn.
    pose proof (map_nth_error q_sort_order _ _ Hn) as Hm.
    assert (Hlen : (n < List.length (questions st))%nat)
      by (apply nth_error_Some; congruence).
    rewrite Hso, (map_nth_error Z.of_nat n _ (nth_error_seq_lt 0 _ n Hlen)) in Hm.
    cbn in Hm. congruence. }
  rewrite (Hnth _ _ Hi), (Hnth _ _ Hj). lia.
Qed.

Lemma generate_sort_positions_witness :
  exists st,
    fst (respond (PlanningRoute.POST "task-1") Sample.fresh) = Json st
    /\ map q_sort_order (questions st) = map Z.of_nat (seq 0 16).
Proof.
  destruct (respond (PlanningRoute.POST "task-1") Sample.fresh) as [r w'] eqn:E.
  assert (Hr : exists st, r = Json st /\ List.length (questions st) = 16%nat).
  { vm_compute in E. injection E as <- _. eexists. split; reflexivity. }
  destruct Hr as (st & -> & Hlen). exists st. split; [reflexivity|].
  rewrite <- Hlen.
  exact (proj1 (generate_sort_positions Sample.fresh w' "task-1" st E)).
Defined.

(** C5: on a task that already has question records, generate is refused
    as [AlreadyGenerated] and leaves the world, hence the stored questions
    and their number, as it was; so is a second generate call after a
    successful one. *)
Theorem generate_is_one_time :
  (forall (w : World) (taskId : string),
      task_exists (db w) taskId -> questions_of (db w) taskId <> [] ->
      respond (PlanningRoute.POST taskId) w = (AlreadyGenerated, w))
  /\ (forall (w w' : World) (taskId : string) (st : PlanningState),
        respond (PlanningRoute.POST taskId) w = (Json st, w') ->
        respond (PlanningRoute.POST taskId) w' = (AlreadyGenerated, w')).
Proof.
  assert (Guard : forall (w : World) (taskId : string),
            task_exists (db w) taskId -> questions_of (db w) taskId <> [] ->
            respond (PlanningRoute.POST taskId) w = (AlreadyGenerated, w)).
  { intros w taskId Ht Hq. rewrite generate_cases.
    destruct (Sql.select_task taskId (db w)) eqn:Et.
    - destruct (Z.ltb_spec 0 (Sql.count_questions taskId (db w))) as [|Hc];
        [reflexivity|].
      exfalso. apply Hq. apply count_questions_zero.
      unfold Sql.count_questions in *. lia.
    - apply select_task_none in Et. contradiction. }
  split; [exact Guard|].
  intros w w' taskId st H.
  pose proof H as Hcases. rewrite generate_cases in Hcases.
  destruct (generate_success _ _ _ _ H)
    as (Ht & Hnone & Hqs & _ & Hstored & _ & _ & _ & _).
  apply Guard.
  - destruct (Sql.select_task taskId (db w)); [|discriminate].
    destruct (0 <? Sql.count_questions taskId (db w)); [discriminate|].
    cbn zeta in Hcases. injection Hcases as _ <-. cbn [db tasks].
    destruct Ht as (row & Hin & Heq).
    unfold task_exists, Sql.update_task_status. cbn [tasks].
    exists (if String.eqb (task_id row) taskId
            then mkTask (task_id row) "planning" else row).
    split.
    + apply in_map_iff. now exists row.
    + destruct (String.eqb (task_id row) taskId); exact Heq.
  - unfold questions_of. rewrite Hstored, filter_app.
    fold (questions_of (db w) taskId). rewrite Hnone, Hqs, generated_rows_task.
    cbn [app]. discriminate.
Qed.

Lemma generate_is_one_time_witness :
  respond (PlanningRoute.POST "task-1") Sample.generated
  = (AlreadyGenerated, Sample.generated).
Proof.
  apply (proj1 generate_is_one_time).
  - exists (mkTask "task-1" "planning"). split; [vm_compute; now left | reflexivity].
  - vm_compute. discriminate.
Defined.

(** C8: every question of a successful generate call is built from the
    template at its place in the catalogue; when the template has k
    options the question is multiple choice and its stored choice list has
    k entries, whose identifiers are the first k letters A, B, C, ... and
    whose labels are the template's options, in order. *)
Theorem generated_choice_identifiers :
  forall (w w' : World) (taskId : string) (st : PlanningState),
    respond (PlanningRoute.POST taskId) w = (Json st, w') ->
    Forall2 built_from catalogue (questions st)
    /\ Forall2 built_from catalogue (Sql.select_questions taskId (db w')).
Proof.
  intros w w' taskId st H.
  destruct (generate_success _ _ _ _ H) as (_ & _ & Hqs & Hsel & _).
  rewrite Hsel, Hqs. split;
    apply generated_rows_built_from, catalogue_choices_small.
Qed.

Lemma generated_choice_identifiers_witness :
  exists st,
    fst (respond (PlanningRoute.POST "task-1") Sample.fresh) = Json st
    /\ Forall2 built_from catalogue (questions st).
Proof.
  destruct (respond (PlanningRoute.POST "task-1") Sample.fresh) as [r w'] eqn:E.
  assert (Hr : exists st, r = Json st).
  { vm_compute in E. injection E as <- _. eexists. reflexivity. }
  destruct Hr as (st & ->). exists st. split; [reflexivity|].
  exact (proj1 (generated_choice_identifiers Sample.fresh w' "task-1" st E)).
Defined.

(* ------------------------------------------------------------------ *)
(** ** The read model *)

Section Read.

Lemma read_cases (w : World) (taskId : string) :
  respond (PlanningRoute.GET taskId) w
  = match Sql.select_task taskId (db w) with
    | None => (TaskNotFound, w)
    | Some _ =>
        let qs := Sql.select_questions taskId (db w) in
        let spec := Sql.select_spec taskId (db w) in
        (Json (mkState qs spec (PlanningRoute.calculate_progress qs)
                       (is_some spec)), w)
    end.
Proof.
  unfold PlanningRoute.GET, respond, bind, query, when, ret.
  destruct (Sql.select_task taskId (db w)); cbn [is_none]; [|reflexivity].
  now rewrite map_parse_options.
Qed.

Lemma order_by_sort_order_In (x : PlanningQuestion) (l : list PlanningQuestion) :
  In x (Sql.order_by_sort_order l) <-> In x l.
Proof.
  assert (Hins : forall q r, In x (Sql.insert_by_sort_order q r) <-> x = q \/ In x r).
  { intros q r. induction r as [|y r IH]; cbn [Sql.insert_by_sort_order].
    - cbn. intuition.
    - destruct (q_sort_order q <=? q_sort_order y); cbn [In] in *; intuition. }
  induction l as [|y l IH]; [reflexivity|].
  unfold Sql.order_by_sort_order in *. cbn [fold_right In].
  rewrite Hins, IH. intuition.
Qed.

(** Under the invariant, a task without questions has no Spec. *)
Lemma no_questions_no_spec (d : Db) (taskId : string) :
  specs_have_questions d -> questions_of d taskId = [] ->
  Sql.select_spec taskId d = None.
Proof.
  intros Hinv Hnone. apply select_spec_none. intros (s & Hs & Hst).
  destruct (Hinv s Hs) as (q & Hq & Hqt).
  assert (Hin : In q (questions_of d taskId)).
  { apply filter_In. split; [exact Hq|]. apply String.eqb_eq. congruence. }
  rewrite Hnone in Hin. exact Hin.
Qed.

(** What a request can do to the world. *)
Lemma answer_world (w : World) (taskId : string) (body : option AnswerRoute.Body) :
  let w' := snd (respond (AnswerRoute.POST taskId body) w) in
  w' = w
  \/ exists questionId value,
       w' = mkWorld (Sql.update_answer value (clock w) questionId (db w))
                    (clock w) (entropy w) (drawn w).
Proof.
  cbn zeta. destruct body as [[qid ans]|]; [|now left].
  destruct (Js.truthy qid) eqn:Eq; [destruct (Js.truthy ans) eqn:Ea|].
  - apply truthy_inv in Eq as (i & -> & Hi).
    apply truthy_inv in Ea as (a & -> & Ha).
    rewrite answer_valid by assumption.
    destruct (Sql.select_question_of_task i taskId (db w)); [|now left].
    destruct (Sql.select_spec taskId (db w)); [now left|].
    right. exists i, a. cbn zeta.
    now destruct (Sql.select_question i _).
  - left. now rewrite answer_invalid by (now right).
  - left. now rewrite answer_invalid by (now left).
Qed.

Lemma generate_world (w : World) (taskId : string) :
  let w' := snd (respond (PlanningRoute.POST taskId) w) in
  w' = w \/ exists st, respond (PlanningRoute.POST taskId) w = (Json st, w').
Proof.
  cbn zeta. rewrite generate_cases.
  destruct (Sql.select_task taskId (db w)); [|now left].
  destruct (0 <? Sql.count_questions taskId (db w)); [now left|].
  right. cbn zeta. eexists. reflexivity.
Qed.

Lemma update_answer_specs_have_questions (value now questionId : string) (d : Db) :
  specs_have_questions d ->
  specs_have_questions (Sql.update_answer value now questionId d).
Proof.
  intros Hinv s Hs. destruct (Hinv s Hs) as (x & Hx & Hxt).
  pose proof (update_answer_frame value now questionId d) as Hrows.
  clear -Hrows Hx Hxt.
  induction Hrows as [|old new l l' (Hsame & _) _ IH]; [contradiction|].
  destruct Hx as [->|Hx].
  - exists new. split; [now left|].
    destruct Hsame as (_ & Htask & _). congruence.
  - destruct (IH Hx) as (y & Hy & Hyt). exists y. split; [now right|exact Hyt].
Qed.

Lemma lock_specs_have_questions (taskId specId markdown : string) (d : Db) :
  specs_have_questions d ->
  specs_have_questions (snd (lock taskId specId markdown d)).
Proof.
  intros Hinv. unfold lock.
  destruct (Sql.select_task taskId d); [|exact Hinv].
  destruct (Sql.select_spec taskId d); [exact Hinv|].
  cbn zeta.
  destruct (0 <? total (PlanningRoute.calculate_progress
                          (Sql.select_questions taskId d))) eqn:Epos;
    cbn [andb]; [|exact Hinv].
  destruct (answered _ =? total _); cbn [snd]; [|exact Hinv].
  intros s Hs. cbn [planning_specs planning_questions] in *.
  apply in_app_or in Hs as [Hs|[<-|[]]]; [now apply Hinv|].
  cbn [spec_task_id]. apply Z.ltb_lt in Epos.
  cbn [PlanningRoute.calculate_progress total] in Epos.
  destruct (Sql.select_questions taskId d) as [|q l] eqn:Esel;
    [cbn in Epos; lia|].
  assert (Hq : In q (Sql.select_questions taskId d))
    by (rewrite Esel; now left).
  unfold Sql.select_questions in Hq.
  apply (proj1 (order_by_sort_order_In _ _)) in Hq.
  apply filter_In in Hq as [Hq Hqt]. apply String.eqb_eq in Hqt.
  now exists q.
Qed.

(** Every request keeps the invariant. *)
Lemma step_specs_have_questions (w w' : World) :
  step w w' -> specs_have_questions (db w) -> specs_have_questions (db w').
Proof.
  intros Hstep Hinv. destruct Hstep as [taskId w|taskId w|taskId body w
                                        |taskId specId markdown w|now w].
  - rewrite read_cases. now destruct (Sql.select_task taskId (db w)).
  - destruct (generate_world w taskId) as [->|(st & E)]; [exact Hinv|].
    destruct (generate_success _ _ _ _ E)
      as (_ & _ & _ & _ & Hstored & Hspecs & _).
    intros s Hs. rewrite Hspecs in Hs. destruct (Hinv s Hs) as (q & Hq & Hqt).
    exists q. split; [|exact Hqt]. rewrite Hstored. apply in_or_app. now left.
  - destruct (answer_world w taskId body) as [->|(qid & value & ->)];
      [exact Hinv|].
    cbn [db]. now apply update_answer_specs_have_questions.
  - cbn [db]. now apply lock_specs_have_questions.
  - exact Hinv.
Qed.

Lemma reachable_specs_have_questions (w : World) :
  reachable w -> specs_have_questions (db w).
Proof.
  induction 1 as [w Hnil|w w' _ IH Hstep].
  - intros s Hs. rewrite Hnil in Hs. contradiction.
  - exact (step_specs_have_questions _ _ Hstep IH).
Qed.

End Read.

(** In a store reached by the requests above and the lock transition, a
    task without questions is read as not locked. *)
Lemma read_without_questions_reachable (w : World) (taskId : string) :
  reachable w -> task_exists (db w) taskId -> questions_of (db w) taskId = [] ->
  exists st,
    respond (PlanningRoute.GET taskId) w = (Json st, w) /\ isLocked st = false.
Proof.
  intros Hreach Ht Hnone. rewrite read_cases.
  destruct (Sql.select_task taskId (db w)) eqn:Et.
  2:{ apply select_task_none in Et. contradiction. }
  rewrite (no_questions_no_spec _ _ (reachable_specs_have_questions _ Hreach) Hnone).
  eexists. split; reflexivity.
Qed.

(** C9 (as amended): reading signals [NotFound] exactly when the task does
    not exist; for an existing task it succeeds, writes nothing, and
    returns the task's questions in sort order, its Spec if any, the
    progress of those questions, and [isLocked] true exactly when there is
    a Spec; a task without questions gives total 0, answered 0 and
    percentage 0, with [isLocked] false exactly when no Spec is stored for
    the task. *)
Theorem read_planning_state :
  (forall (w : World) (taskId : string),
      fst (respond (PlanningRoute.GET taskId) w) = TaskNotFound
      <-> ~ task_exists (db w) taskId)
  /\ (forall (w : World) (taskId : string),
        task_exists (db w) taskId ->
        exists st,
          respond (PlanningRoute.GET taskId) w = (Json st, w)
          /\ questions st = Sql.select_questions taskId (db w)
          /\ spec st = Sql.select_spec taskId (db w)
          /\ progress st = PlanningRoute.calculate_progress (questions st)
          /\ isLocked st = is_some (spec st)
          /\ (isLocked st = true <-> has_spec (db w) taskId))
  /\ (forall (w : World) (taskId : string),
        task_exists (db w) taskId -> questions_of (db w) taskId = [] ->
        exists st,
          respond (PlanningRoute.GET taskId) w = (Json st, w)
          /\ questions st = []
          /\ total (progress st) = 0 /\ answered (progress st) = 0
          /\ percentage (progress st) = 0
          /\ spec st = Sql.select_spec taskId (db w)
          /\ (isLocked st = false <-> ~ has_spec (db w) taskId)).
Proof.
  assert (Hlocked : forall (d : Db) (taskId : string),
            is_some (Sql.select_spec taskId d) = true <-> has_spec d taskId).
  { intros d taskId.
    destruct (Sql.select_spec taskId d) eqn:Es; cbn [is_some is_none negb].
    - split; [intros _|reflexivity].
      apply find_some in Es as [Hin Heq]. apply String.eqb_eq in Heq.
      now exists p.
    - split; [discriminate|]. intros Hs. apply select_spec_none in Es.
      contradiction. }
  split; [|split].
  - intros w taskId. rewrite read_cases, <- select_task_none.
    destruct (Sql.select_task taskId (db w)); cbn [fst]; split;
      try reflexivity; discriminate.
  - intros w taskId Ht. rewrite read_cases.
    destruct (Sql.select_task taskId (db w)) eqn:Et.
    2:{ apply select_task_none in Et. contradiction. }
    eexists. split; [reflexivity|]. cbn [questions spec progress isLocked].
    repeat (split; [reflexivity|]). apply Hlocked.
  - intros w taskId Ht Hnone. rewrite read_cases.
    destruct (Sql.select_task taskId (db w)) eqn:Et.
    2:{ apply select_task_none in Et. contradiction. }
    unfold Sql.select_questions. fold (questions_of (db w) taskId).
    rewrite Hnone.
    eexists. split; [reflexivity|]. cbn [questions spec progress isLocked].
    repeat (split; [reflexivity|]).
    rewrite <- Hlocked.
    destruct (is_some (Sql.select_spec taskId (db w))); split;
      try reflexivity; try discriminate; intros H; now contradiction H.
Qed.

Lemma read_planning_state_witness :
  exists st,
    respond (PlanningRoute.GET "task-1") Sample.fresh = (Json st, Sample.fresh)
    /\ total (progress st) = 0 /\ percentage (progress st) = 0
    /\ isLocked st = false.
Proof.
  destruct (proj2 (proj2 read_planning_state) Sample.fresh "task-1")
    as (st & H & _ & Ht & _ & Hp & _ & Hl).
  - exists (mkTask "task-1" "inbox"). split; [left; reflexivity | reflexivity].
  - reflexivity.
  - exists st. split; [exact H|]. split; [exact Ht|]. split; [exact Hp|].
    apply (proj2 Hl). intros (s & Hs & _). exact Hs.
Defined.

(** C9, as first stated, fails in a store that holds a Spec for a task
    without questions: the read gives total 0 and percentage 0, and
    [isLocked] is true. *)
Lemma read_spec_without_questions :
  task_exists (db Sample3.spec_without_questions) "task-1"
  /\ questions_of (db Sample3.spec_without_questions) "task-1" = []
  /\ respond (PlanningRoute.GET "task-1") Sample3.spec_without_questions
     = (Json (mkState [] (Some (mkSpec "spec-1" "task-1" "# Spec"))
                      (mkProgress 0 0 0) true),
        Sample3.spec_without_questions).
Proof.
  split.
  { exists (mkTask "task-1" "inbox"). split; [left; reflexivity | reflexivity]. }
  split; vm_compute; reflexivity.
Qed.

(* ------------------------------------------------------------------ *)
(** ** The sample task, end to end *)

Example sample_complete_progress :
  exists st,
    respond (PlanningRoute.GET "task-1") Sample.complete = (Json st, Sample.complete)
    /\ progress st = mkProgress 16 16 100 /\ isLocked st = false
    /\ PlanningTab.PlanningTab false (Some st) = PlanningTab.Questions true.
Proof. eexists. split; [vm_compute; reflexivity|]. now vm_compute. Qed.

Example sample_locked_by_lock :
  lock "task-1" "spec-1" "# Spec" (db Sample.complete)
  = (LockedAs (mkSpec "spec-1" "task-1" "# Spec"), db Sample.locked).
Proof. vm_compute. reflexivity. Qed.

Example sample_generated_not_lockable :
  fst (lock "task-1" "spec-1" "# Spec" (db Sample.generated)) = Incomplete.
Proof. vm_compute. reflexivity. Qed.

(* ================================================================== *)
(** * Further properties of the routes *)

(* ------------------------------------------------------------------ *)
(** ** The answer route, case by case *)

Section AnswerCases.

Variables (w : World) (taskId : string).

(** The accepted case in full. *)
Lemma answer_accepted (questionId value : string) (q : PlanningQuestion) :
  questionId <> "" -> value <> "" ->
  Sql.select_question_of_task questionId taskId (db w) = Some q ->
  Sql.select_spec taskId (db w) = None ->
  exists q1,
    Sql.select_question questionId (db w) = Some q1
    /\ q_id q1 = questionId
    /\ answer_call taskId questionId value w
       = (Json (Sql.set_answer value (clock w) q1),
          mkWorld (Sql.update_answer value (clock w) questionId (db w))
                  (clock w) (entropy w) (drawn w)).
Proof.
  intros Hq Hv Hfound Hspec. unfold answer_call.
  rewrite answer_valid by assumption. rewrite Hfound, Hspec. cbn zeta. cbn [db].
  rewrite select_question_update.
  destruct (select_question_of_task_some _ _ _ _ Hfound) as (q1 & Hq1 & Hid).
  exists q1. rewrite Hq1. cbn [option_map]. rewrite parse_options_id.
  now repeat split.
Qed.

(** Every way the route can end. *)
Lemma answer_outcomes (body : option AnswerRoute.Body) :
  let res := respond (AnswerRoute.POST taskId body) w in
  (body = None /\ res = (Error 500 "Failed to answer question", w))
  \/ res = (InvalidInput, w)
  \/ res = (NotFound, w)
  \/ res = (Locked, w)
  \/ exists questionId value q1,
       body = Some (AnswerRoute.mkBody (Some questionId) (Some value))
       /\ questionId <> "" /\ value <> ""
       /\ Sql.select_question_of_task questionId taskId (db w) <> None
       /\ Sql.select_spec taskId (db w) = None
       /\ Sql.select_question questionId (db w) = Some q1
       /\ res = (Json (Sql.set_answer value (clock w) q1),
                 mkWorld (Sql.update_answer value (clock w) questionId (db w))
                         (clock w) (entropy w) (drawn w)).
Proof.
  cbn zeta. destruct body as [[qid ans]|]; [|left; now split].
  right. destruct (Js.truthy qid) eqn:Eq; [destruct (Js.truthy ans) eqn:Ea|].
  - apply truthy_inv in Eq as (i & -> & Hi).
    apply truthy_inv in Ea as (a & -> & Ha).
    destruct (Sql.select_question_of_task i taskId (db w)) as [q|] eqn:Ef.
    + destruct (Sql.select_spec taskId (db w)) eqn:Es.
      * right. right. left. rewrite answer_valid by assumption.
        now rewrite Ef, Es.
      * right. right. right.
        destruct (answer_accepted i a q Hi Ha Ef Es) as (q1 & Hq1 & _ & Hres).
        exists i, a, q1. rewrite Ef. repeat split; try assumption. discriminate.
    + right. left. rewrite answer_valid by assumption. now rewrite Ef.
  - left. apply answer_invalid. now right.
  - left. apply answer_invalid. now left.
Qed.

End AnswerCases.

(** X1: an answer call that ends in an error response, whichever it is,
    has written nothing: the world after it is the world before it. *)
Theorem answer_refusal_leaves_world :
  forall (w w' : World) (taskId : string) (body : option AnswerRoute.Body)
         (status : Z) (error : string),
    respond (AnswerRoute.POST taskId body) w = (Error status error, w') ->
    w' = w.
Proof.
  intros w w' taskId body status error H.
  destruct (answer_outcomes w taskId body)
    as [[_ E]|[E|[E|[E|(i & a & q1 & _ & _ & _ & _ & _ & _ & E)]]]];
    rewrite E in H; try congruence.
Qed.

Lemma answer_refusal_leaves_world_witness :
  snd (respond (AnswerRoute.POST "task-2"
                  (Sample.answer_body (q_id Sample.first_question) "x"))
               Sample.generated)
  = Sample.generated.
Proof.
  destruct (respond (AnswerRoute.POST "task-2"
                       (Sample.answer_body (q_id Sample.first_question) "x"))
                    Sample.generated) as [r w'] eqn:E.
  assert (Hr : r = NotFound)
    by (vm_compute in E; injection E as <- _; reflexivity).
  subst r. cbn [snd].
  exact (answer_refusal_leaves_world _ _ _ _ _ _ E).
Defined.

(** X2: every answer request ends in one of five ways: with the updated
    record, as [InvalidInput], as [NotFound], as [Locked], or with the 500
    of the [catch].  The response "Question not found after update" is
    never given: the update keeps the identifier of the row that the lookup
    has just found, so the second lookup finds it again. *)
Theorem answer_responses :
  forall (w : World) (taskId : string) (body : option AnswerRoute.Body),
    let r := fst (respond (AnswerRoute.POST taskId body) w) in
    (exists q, r = Json q)
    \/ r = InvalidInput
    \/ r = NotFound
    \/ r = Locked
    \/ r = Error 500 "Failed to answer question".
Proof.
  intros w taskId body. cbn zeta.
  destruct (answer_outcomes w taskId body)
    as [[_ E]|[E|[E|[E|(i & a & q1 & _ & _ & _ & _ & _ & _ & E)]]]];
    rewrite E; cbn [fst].
  - right. right. right. right. reflexivity.
  - right. left. reflexivity.
  - right. right. left. reflexivity.
  - right. right. right. left. reflexivity.
  - left. eexists. reflexivity.
Qed.

(* ------------------------------------------------------------------ *)
(** ** Reading after answering *)

Section ReadAfterAnswer.

Lemma insert_by_sort_order_map (f : PlanningQuestion -> PlanningQuestion) :
  (forall q, q_sort_order (f q) = q_sort_order q) ->
  forall q l,
    Sql.insert_by_sort_order (f q) (map f l)
    = map f (Sql.insert_by_sort_order q l).
Proof.
  intros Hf q l. induction l as [|x l IH]; [reflexivity|].
  cbn [map Sql.insert_by_sort_order]. rewrite !Hf.
  destruct (q_sort_order q <=? q_sort_order x); cbn [map]; [reflexivity|].
  now rewrite IH.
Qed.

Lemma order_by_sort_order_map (f : PlanningQuestion -> PlanningQuestion) :
  (forall q, q_sort_order (f q) = q_sort_order q) ->
  forall l, Sql.order_by_sort_order (map f l) = map f (Sql.order_by_sort_order l).
Proof.
  intros Hf l. unfold Sql.order_by_sort_order.
  induction l as [|x l IH]; [reflexivity|].
  cbn [map fold_right]. rewrite IH. now apply insert_by_sort_order_map.
Qed.

Lemma filter_task_map (f : PlanningQuestion -> PlanningQuestion) (taskId : string) :
  (forall q, q_task_id (f q) = q_task_id q) ->
  forall l,
    filter (fun q => String.eqb (q_task_id q) taskId) (map f l)
    = map f (filter (fun q => String.eqb (q_task_id q) taskId) l).
Proof.
  intros Hf l. induction l as [|x l IH]; [reflexivity|].
  cbn [map filter]. rewrite Hf.
  destruct (String.eqb (q_task_id x) taskId); cbn [map]; now rewrite IH.
Qed.

Lemma unanswered_set_answer value now q :
  value <> "" -> Tab.unanswered (Sql.set_answer value now q) = false.
Proof.
  intros Hv. unfold Tab.unanswered. cbn [Sql.set_answer q_answer].
  now rewrite (truthy_nonempty _ Hv).
Qed.

Lemma updated_sort_order value now questionId q :
  q_sort_order (updated value now questionId q) = q_sort_order q.
Proof. unfold updated. now destruct (String.eqb (q_id q) questionId). Qed.

Lemma updated_task value now questionId q :
  q_task_id (updated value now questionId q) = q_task_id q.
Proof. unfold updated. now destruct (String.eqb (q_id q) questionId). Qed.

Lemma updated_id value now questionId q :
  q_id (updated value now questionId q) = q_id q.
Proof. unfold updated. now destruct (String.eqb (q_id q) questionId). Qed.

(** Selecting a task's questions after the update is updating the
    selection. *)
Lemma select_questions_update (value now questionId taskId : string) (d : Db) :
  Sql.select_questions taskId (Sql.update_answer value now questionId d)
  = map (updated value now questionId) (Sql.select_questions taskId d).
Proof.
  unfold Sql.select_questions, Sql.update_answer. cbn [planning_questions].
  change (fun q => if String.eqb (q_id q) questionId
                   then Sql.set_answer value now q else q)
    with (updated value now questionId).
  rewrite filter_task_map by apply updated_task.
  apply order_by_sort_order_map, updated_sort_order.
Qed.

Lemma questions_of_update (value now questionId taskId : string) (d : Db) :
  questions_of (Sql.update_answer value now questionId d) taskId
  = map (updated value now questionId) (questions_of d taskId).
Proof.
  unfold questions_of, Sql.update_answer. cbn [planning_questions].
  change (fun q => if String.eqb (q_id q) questionId
                   then Sql.set_answer value now q else q)
    with (updated value now questionId).
  apply filter_task_map, updated_task.
Qed.

Lemma count_answered_cons (q : PlanningQuestion) (l : list PlanningQuestion) :
  count_answered (q :: l)
  = (if Tab.unanswered q then 0 else 1) + count_answered l.
Proof.
  cbn [count_answered]. unfold Tab.unanswered, Js.truthy, Js.truthy_string.
  destruct (q_answer q) as [[|c s]|]; reflexivity.
Qed.

Lemma count_answered_insert (q : PlanningQuestion) (l : list PlanningQuestion) :
  count_answered (Sql.insert_by_sort_order q l) = count_answered (q :: l).
Proof.
  induction l as [|x l IH]; [reflexivity|].
  cbn [Sql.insert_by_sort_order].
  destruct (q_sort_order q <=? q_sort_order x); [reflexivity|].
  rewrite !count_answered_cons in *. rewrite IH. lia.
Qed.

Lemma count_answered_order_by (l : list PlanningQuestion) :
  count_answered (Sql.order_by_sort_order l) = count_answered l.
Proof.
  unfold Sql.order_by_sort_order. induction l as [|x l IH]; [reflexivity|].
  cbn [fold_right]. rewrite count_answered_insert, !count_answered_cons.
  now rewrite IH.
Qed.

Lemma length_insert_by_sort_order (q : PlanningQuestion) (l : list PlanningQuestion) :
  List.length (Sql.insert_by_sort_order q l) = S (List.length l).
Proof.
  induction l as [|x l IH]; [reflexivity|].
  cbn [Sql.insert_by_sort_order].
  destruct (q_sort_order q <=? q_sort_order x); cbn [List.length]; [reflexivity|].
  now rewrite IH.
Qed.

Lemma length_order_by (l : list PlanningQuestion) :
  List.length (Sql.order_by_sort_order l) = List.length l.
Proof.
  unfold Sql.order_by_sort_order. induction l as [|x l IH]; [reflexivity|].
  cbn [fold_right List.length]. now rewrite length_insert_by_sort_order, IH.
Qed.

(** The progress GET computes, in terms of the task's records. *)
Lemma progress_of_task (d : Db) (taskId : string) :
  PlanningRoute.calculate_progress (Sql.select_questions taskId d)
  = let qs := questions_of d taskId in
    mkProgress (Z.of_nat (List.length qs)) (count_answered qs)
               (percentage_of (count_answered qs) (Z.of_nat (List.length qs))).
Proof.
  unfold PlanningRoute.calculate_progress. rewrite count_answered_filter.
  unfold Sql.select_questions. fold (questions_of d taskId).
  now rewrite count_answered_order_by, length_order_by.
Qed.

Lemma count_answered_updated_le value now questionId (l : list PlanningQuestion) :
  value <> "" ->
  count_answered l <= count_answered (map (updated value now questionId) l).
Proof.
  intros Hv. induction l as [|x l IH]; [reflexivity|].
  cbn [map]. rewrite !count_answered_cons. unfold updated at 1.
  destruct (String.eqb (q_id x) questionId).
  - rewrite (unanswered_set_answer _ _ _ Hv). destruct (Tab.unanswered x); lia.
  - lia.
Qed.

Lemma map_updated_other value now questionId (l : list PlanningQuestion) :
  (forall x, In x l -> q_id x <> questionId) ->
  map (updated value now questionId) l = l.
Proof.
  induction l as [|x l IH]; intros H; [reflexivity|].
  cbn [map]. rewrite IH by (intros y Hy; apply H; now right).
  unfold updated. pose proof (H x (or_introl eq_refl)) as Hx.
  apply String.eqb_neq in Hx. now rewrite Hx.
Qed.

Lemma NoDup_map_In_eq {A B} (f : A -> B) (l : list A) :
  NoDup (map f l) -> forall x y, In x l -> In y l -> f x = f y -> x = y.
Proof.
  induction l as [|a l IH]; intros Hnd x y Hx Hy Hf; [contradiction|].
  cbn [map] in Hnd. inversion Hnd as [|? ? Hnotin Hnd']; subst.
  destruct Hx as [->|Hx], Hy as [->|Hy].
  - reflexivity.
  - exfalso. apply Hnotin. rewrite Hf. now apply in_map.
  - exfalso. apply Hnotin. rewrite <- Hf. now apply in_map.
  - now apply IH.
Qed.

(** Selecting rows keeps their identifiers distinct. *)
Lemma ids_unique_filter (keep : PlanningQuestion -> bool)
    (rows : list PlanningQuestion) :
  NoDup (map q_id rows) -> NoDup (map q_id (filter keep rows)).
Proof.
  induction rows as [|row rows IH]; intros Hnd; [constructor|].
  cbn [map] in Hnd. inversion Hnd as [|? ? Hfresh Hrest]; subst.
  cbn [filter]. destruct (keep row); [|now apply IH].
  cbn [map]. constructor; [|now apply IH].
  intros Hin. apply Hfresh. apply in_map_iff in Hin as (x & Hx & Hin).
  apply filter_In in Hin as [Hin _]. apply in_map_iff. now exists x.
Qed.

Lemma count_answered_updated_unique value now questionId
    (l : list PlanningQuestion) (q : PlanningQuestion) :
  value <> "" -> NoDup (map q_id l) -> In q l -> q_id q = questionId ->
  count_answered (map (updated value now questionId) l)
  = count_answered l + (if Tab.unanswered q then 1 else 0).
Proof.
  intros Hv Hnd Hin Hid. induction l as [|x l IH]; [contradiction|].
  cbn [map] in *. inversion Hnd as [|? ? Hnotin Hnd']; subst.
  rewrite !count_answered_cons.
  destruct Hin as [->|Hin].
  - rewrite map_updated_other.
    + unfold updated. rewrite String.eqb_refl.
      rewrite (unanswered_set_answer _ _ _ Hv). destruct (Tab.unanswered q); lia.
    + intros y Hy Heq. apply Hnotin. rewrite <- Heq. now apply in_map.
  - rewrite (IH Hnd' Hin).
    assert (Hne : q_id x <> q_id q).
    { intros Heq. apply Hnotin. rewrite Heq. now apply in_map. }
    unfold updated at 1. apply String.eqb_neq in Hne. rewrite Hne. lia.
Qed.

End ReadAfterAnswer.

(** X3: after a successful answer call, reading the task shows the same
    number of questions, at least as many answered, and the value on every
    question with the given identifier; when identifiers are unique the
    answered count goes up by one if the question was unanswered and stays
    as it was otherwise. *)
Theorem answer_then_read :
  forall (w w' : World) (taskId : string) (body : option AnswerRoute.Body)
         (r : PlanningQuestion),
    respond (AnswerRoute.POST taskId body) w = (Json r, w') ->
    exists questionId value q,
      body = Some (AnswerRoute.mkBody (Some questionId) (Some value))
      /\ Sql.select_question_of_task questionId taskId (db w) = Some q
      /\ let before := PlanningRoute.calculate_progress
                         (Sql.select_questions taskId (db w)) in
         let after := PlanningRoute.calculate_progress
                        (Sql.select_questions taskId (db w')) in
         total after = total before
         /\ answered before <= answered after
         /\ (forall x, In x (Sql.select_questions taskId (db w')) ->
                       q_id x = questionId -> q_answer x = Some value)
         /\ (ids_unique (db w) ->
             answered after
             = answered before + (if Tab.unanswered q then 1 else 0)).
Proof.
  intros w w' taskId body r H.
  destruct (answer_outcomes w taskId body)
    as [[_ E]|[E|[E|[E|(i & a & q1 & -> & Hi & Ha & Hfound & Hspec & Hq1 & E)]]]];
    rewrite E in H; try discriminate.
  injection H as _ <-.
  destruct (Sql.select_question_of_task i taskId (db w)) as [q|] eqn:Ef;
    [clear Hfound|contradiction].
  exists i, a, q. split; [reflexivity|]. split; [exact Ef|].
  cbn zeta. cbn [db].
  rewrite !progress_of_task, questions_of_update. cbn zeta. cbn [total answered].
  split; [now rewrite length_map|].
  split; [now apply count_answered_updated_le|].
  split.
  - intros x Hx Hid. rewrite select_questions_update in Hx.
    apply in_map_iff in Hx as (y & <- & _). rewrite updated_id in Hid.
    unfold updated. apply String.eqb_eq in Hid. now rewrite Hid.
  - intros Hnd. apply find_some in Ef as [Hin Hq].
    apply andb_true_iff in Hq as [Hid Htask]. apply String.eqb_eq in Hid.
    apply count_answered_updated_unique; try assumption.
    + now apply ids_unique_filter.
    + apply filter_In. now split.
Qed.

Lemma answer_then_read_witness :
  exists r w',
    respond (AnswerRoute.POST "task-1"
               (Sample.answer_body (q_id Sample.first_question) "Provide information"))
            Sample.generated
    = (Json r, w')
    /\ total (PlanningRoute.calculate_progress (Sql.select_questions "task-1" (db w')))
       = 16.
Proof.
  destruct (respond (AnswerRoute.POST "task-1"
               (Sample.answer_body (q_id Sample.first_question) "Provide information"))
            Sample.generated) as [r w'] eqn:E.
  assert (Hr : exists q, r = Json q)
    by (vm_compute in E; injection E as <- _; eexists; reflexivity).
  destruct Hr as (q & ->). exists q, w'. split; [reflexivity|].
  destruct (answer_then_read _ _ _ _ _ E) as (i & a & q0 & _ & _ & Htotal & _).
  cbn zeta in Htotal. rewrite Htotal. vm_compute. reflexivity.
Defined.

(** X4: when question identifiers are unique, an answer call made under
    one task, whatever its outcome, does not change what reading any other
    task returns. *)
Theorem answer_keeps_other_tasks :
  forall (w : World) (taskId other : string) (body : option AnswerRoute.Body),
    ids_unique (db w) -> other <> taskId ->
    fst (respond (PlanningRoute.GET other)
                 (snd (respond (AnswerRoute.POST taskId body) w)))
    = fst (respond (PlanningRoute.GET other) w).
Proof.
  intros w taskId other body Hnd Hne.
  destruct (answer_outcomes w taskId body)
    as [[_ E]|[E|[E|[E|(i & a & q1 & _ & Hi & Ha & Hfound & Hspec & Hq1 & E)]]]];
    rewrite E; cbn [snd]; try reflexivity.
  rewrite !read_cases. cbn [db].
  change (Sql.select_task other (Sql.update_answer a (clock w) i (db w)))
    with (Sql.select_task other (db w)).
  destruct (Sql.select_task other (db w)); [|reflexivity].
  cbn zeta. cbn [fst].
  change (Sql.select_spec other (Sql.update_answer a (clock w) i (db w)))
    with (Sql.select_spec other (db w)).
  rewrite select_questions_update, map_updated_other; [reflexivity|].
  intros x Hx Hid.
  destruct (Sql.select_question_of_task i taskId (db w)) as [q|] eqn:Ef;
    [|contradiction].
  apply find_some in Ef as [Hqin Hq]. apply andb_true_iff in Hq as [Hqid Hqtask].
  apply String.eqb_eq in Hqid. apply String.eqb_eq in Hqtask.
  unfold Sql.select_questions in Hx.
  apply (proj1 (order_by_sort_order_In _ _)) in Hx.
  apply filter_In in Hx as [Hxin Hxtask]. apply String.eqb_eq in Hxtask.
  assert (x = q) by (apply (NoDup_map_In_eq q_id _ Hnd); congruence).
  subst x. congruence.
Qed.

Lemma answer_keeps_other_tasks_witness :
  fst (respond (PlanningRoute.GET "task-2")
               (snd (respond (AnswerRoute.POST "task-1"
                                (Sample.answer_body (q_id Sample.first_question)
                                                    "Provide information"))
                             Sample2.two_tasks)))
  = fst (respond (PlanningRoute.GET "task-2") Sample2.two_tasks).
Proof.
  apply answer_keeps_other_tasks.
  - unfold ids_unique.
    assert (H : map q_id (planning_questions (db Sample2.two_tasks))
                = map Sample.ids (seq 0 16)) by (vm_compute; reflexivity).
    rewrite H. clear H.
    repeat (constructor; [cbn; intros H; repeat (destruct H as [H|H]; [discriminate H|]); exact H|]).
    constructor.
  - discriminate.
Defined.

(* ------------------------------------------------------------------ *)
(** ** Answering every question *)

Section AnswerAll.

Variable taskId : string.

Lemma Forall2_compose {A} (R1 R2 R3 : A -> A -> Prop) :
  (forall a b c, R1 a b -> R2 b c -> R3 a c) ->
  forall l1 l2 l3, Forall2 R1 l1 l2 -> Forall2 R2 l2 l3 -> Forall2 R3 l1 l3.
Proof.
  intros Hc l1 l2 l3 H12. revert l3.
  induction H12 as [|a b l1 l2 Hab _ IH]; intros l3 H23;
    inversion H23 as [|? c ? l3' Hbc H23']; subst; constructor.
  - exact (Hc _ _ _ Hab Hbc).
  - now apply IH.
Qed.

(** One answer call with non-empty arguments on an unlocked task: what it
    does to each record. *)
Lemma answer_call_rows (w : World) (questionId value : string) :
  questionId <> "" -> value <> "" -> ~ has_spec (db w) taskId ->
  let w' := snd (answer_call taskId questionId value w) in
  planning_specs (db w') = planning_specs (db w)
  /\ Forall2 (fun old new =>
                q_id new = q_id old /\ q_task_id new = q_task_id old
                /\ (Tab.unanswered old = false -> Tab.unanswered new = false)
                /\ (q_task_id old = taskId -> q_id old = questionId ->
                    Tab.unanswered new = false))
             (planning_questions (db w)) (planning_questions (db w')).
Proof.
  intros Hq Hv Hspec. cbn zeta. unfold answer_call.
  rewrite answer_valid by assumption.
  apply select_spec_none in Hspec.
  destruct (Sql.select_question_of_task questionId taskId (db w)) eqn:Ef.
  - rewrite Hspec. cbn zeta. cbn [db].
    assert (Hsnd : forall r1 r2 : Response PlanningQuestion * World,
               snd r1 = snd r2 -> planning_questions (db (snd r1))
                                  = planning_questions (db (snd r2)))
      by (intros ? ? ->; reflexivity).
    destruct (Sql.select_question questionId _); cbn [snd db];
      (split; [reflexivity|]);
      unfold Sql.update_answer; cbn [planning_questions];
      induction (planning_questions (db w)) as [|x l IH]; cbn [map];
      constructor; try exact IH;
      (destruct (String.eqb_spec (q_id x) questionId) as [Hid|Hne];
       [ repeat split; intros; now apply unanswered_set_answer
       | repeat split; [tauto | intros _ Hid; contradiction] ]).
  - cbn [snd]. split; [reflexivity|].
    pose proof (proj1 (select_question_of_task_none _ _ _) Ef) as Hnone.
    induction (planning_questions (db w)) as [|x l IH]; constructor.
    + repeat split; [tauto|]. intros Ht Hid. exfalso.
      exact (Hnone x (or_introl eq_refl) Hid Ht).
    + apply IH. intros y Hy. apply Hnone. now right.
Qed.

(** After the calls, every record of the task named in them is answered. *)
Lemma answer_all_rows (answers : list (string * string)) :
  forall w : World,
    (forall p, In p answers -> fst p <> "" /\ snd p <> "") ->
    ~ has_spec (db w) taskId ->
    Forall2 (fun old new =>
               q_id new = q_id old /\ q_task_id new = q_task_id old
               /\ (Tab.unanswered old = false -> Tab.unanswered new = false)
               /\ (q_task_id old = taskId ->
                   (exists v, In (q_id old, v) answers) ->
                   Tab.unanswered new = false))
            (planning_questions (db w))
            (planning_questions (db (answer_all taskId answers w))).
Proof.
  induction answers as [|[i v] rest IH]; intros w Hvalid Hspec.
  - cbn. induction (planning_questions (db w)); constructor; [|assumption].
    repeat split; [tauto|]. now intros _ (v & []).
  - cbn [answer_all fold_left fst snd].
    destruct (Hvalid (i, v) (or_introl eq_refl)) as [Hi Hv]. cbn [fst snd] in Hi, Hv.
    destruct (answer_call_rows w i v Hi Hv Hspec) as [Hspecs Hstep].
    cbn zeta in Hspecs, Hstep.
    assert (Hspec' : ~ has_spec (db (snd (answer_call taskId i v w))) taskId).
    { intros (s & Hs & Hst). apply Hspec. exists s. now rewrite <- Hspecs. }
    specialize (IH (snd (answer_call taskId i v w))
                   (fun p Hp => Hvalid p (or_intror Hp)) Hspec').
    fold (answer_all taskId rest (snd (answer_call taskId i v w))).
    refine (Forall2_compose _ _ _ _ _ _ _ Hstep IH).
    intros a b c (Hid1 & Ht1 & Hk1 & Ha1) (Hid2 & Ht2 & Hk2 & Ha2).
    split; [congruence|]. split; [congruence|]. split; [tauto|].
    intros Ht (v0 & [Heq|Hin]).
    + injection Heq as Heq _. apply Hk2, Ha1; [exact Ht | now symmetry].
    + apply Ha2; [congruence|]. exists v0. congruence.
Qed.

Lemma Forall2_Forall {A} (P Q : A -> Prop) (l l' : list A) :
  Forall2 (fun a b => P a -> Q b) l l' -> Forall P l -> Forall Q l'.
Proof.
  induction 1 as [|a b l l' Hab _ IH]; intros Hl; [constructor|].
  inversion Hl; subst. constructor; auto.
Qed.

Lemma count_answered_all (l : list PlanningQuestion) :
  Forall (fun q => Tab.unanswered q = false) l ->
  count_answered l = Z.of_nat (List.length l).
Proof.
  induction 1 as [|q l Hq _ IH]; [reflexivity|].
  rewrite count_answered_cons, Hq, IH. cbn [List.length]. lia.
Qed.

Lemma Forall2_filter_task {R : PlanningQuestion -> PlanningQuestion -> Prop}
    (l l' : list PlanningQuestion) :
  Forall2 (fun old new => q_task_id new = q_task_id old /\ R old new) l l' ->
  Forall2 R (filter (fun q => String.eqb (q_task_id q) taskId) l)
            (filter (fun q => String.eqb (q_task_id q) taskId) l').
Proof.
  induction 1 as [|a b l l' [Ht HR] _ IH]; [constructor|].
  cbn [filter]. rewrite Ht.
  destruct (String.eqb (q_task_id a) taskId); [constructor|]; assumption.
Qed.

End AnswerAll.

(** X5: on an unlocked task, once answer calls with non-empty identifiers
    and values have named every question of the task (in any order, with
    repeats or with identifiers the task does not have), reading the task
    gives answered = total, with the total unchanged; for a task with 1 to
    199 questions the percentage is then 100. *)
Theorem answering_every_question_completes :
  forall (w : World) (taskId : string) (answers : list (string * string)),
    ~ has_spec (db w) taskId ->
    (forall p, In p answers -> fst p <> "" /\ snd p <> "") ->
    (forall q, In q (questions_of (db w) taskId) ->
               exists v, In (q_id q, v) answers) ->
    let before := PlanningRoute.calculate_progress
                    (Sql.select_questions taskId (db w)) in
    let after := PlanningRoute.calculate_progress
                   (Sql.select_questions taskId
                      (db (answer_all taskId answers w))) in
    total after = total before /\ answered after = total after
    /\ (0 < total before < 200 -> percentage after = 100).
Proof.
  intros w taskId answers Hspec Hvalid Hall. cbn zeta.
  rewrite !progress_of_task. cbn zeta. cbn [total answered percentage].
  pose proof (answer_all_rows taskId answers w Hvalid Hspec) as Hrows.
  assert (Hf : Forall2 (fun old new =>
                          (Tab.unanswered old = false -> Tab.unanswered new = false)
                          /\ (q_task_id old = taskId ->
                              (exists v, In (q_id old, v) answers) ->
                              Tab.unanswered new = false))
                       (questions_of (db w) taskId)
                       (questions_of (db (answer_all taskId answers w)) taskId)).
  { unfold questions_of. apply Forall2_filter_task.
    eapply Forall2_impl; [|exact Hrows]. cbn beta. tauto. }
  assert (Hlen : List.length (questions_of (db (answer_all taskId answers w)) taskId)
                 = List.length (questions_of (db w) taskId))
    by (symmetry; exact (Forall2_length Hf)).
  assert (Hdone : Forall (fun q => Tab.unanswered q = false)
                         (questions_of (db (answer_all taskId answers w)) taskId)).
  { apply (Forall2_Forall
             (fun q => q_task_id q = taskId /\ exists v, In (q_id q, v) answers)
             _ (questions_of (db w) taskId)).
    - eapply Forall2_impl; [|exact Hf]. cbn beta. tauto.
    - apply Forall_forall. intros q Hq. split; [|now apply Hall].
      apply filter_In in Hq as [_ Hq]. now apply String.eqb_eq. }
  rewrite Hlen, (count_answered_all _ Hdone), Hlen.
  split; [reflexivity|]. split; [reflexivity|].
  intros Hrange. apply percentage_full_iff; lia.
Qed.

Lemma answering_every_question_completes_witness :
  PlanningRoute.calculate_progress
    (Sql.select_questions "task-1"
       (db (answer_all "task-1"
              (map (fun n => (Sample.ids n, "No rush")) (seq 0 16))
              Sample.generated)))
  = mkProgress 16 16 100.
Proof.
  destruct (answering_every_question_completes Sample.generated "task-1"
              (map (fun n => (Sample.ids n, "No rush")) (seq 0 16)))
    as (Ht & Ha & Hp).
  - intros (s & Hs & _). vm_compute in Hs. exact Hs.
  - intros p Hp. apply in_map_iff in Hp as (n & <- & _). cbn [fst snd].
    split; [|discriminate]. unfold Sample.ids. discriminate.
  - intros q Hq. exists "No rush".
    assert (Hids : forallb (fun q => existsb (fun n => String.eqb (q_id q) (Sample.ids n))
                                             (seq 0 16))
                           (questions_of (db Sample.generated) "task-1") = true)
      by (vm_compute; reflexivity).
    rewrite forallb_forall in Hids. specialize (Hids q Hq).
    apply existsb_exists in Hids as (n & Hn & Heq). apply String.eqb_eq in Heq.
    apply in_map_iff. exists n. rewrite Heq. split; [reflexivity | exact Hn].
  - cbn zeta in Ht, Ha, Hp.
    assert (Hb : PlanningRoute.calculate_progress
                   (Sql.select_questions "task-1" (db Sample.generated))
                 = mkProgress 16 0 0) by (vm_compute; reflexivity).
    rewrite Hb in Ht, Hp. cbn [total] in Ht, Hp.
    specialize (Hp ltac:(lia)).
    destruct (PlanningRoute.calculate_progress _) as [t a p].
    cbn [total answered percentage] in *. congruence.
Defined.

(* ------------------------------------------------------------------ *)
(** ** The generate route: refusals, frame, isolation *)

Section GenerateFrame.

Variable taskId : string.

Lemma generated_rows_ids cts : forall s ids k,
  map q_id (generated_rows taskId cts s ids k)
  = map (fun i => ids (k + i)%nat) (seq 0 (List.length cts)).
Proof.
  induction cts as [|[c t] rest IH]; intros; [reflexivity|].
  cbn [generated_rows map List.length seq generated_row q_id].
  rewrite IH, <- seq_shift, map_map, Nat.add_0_r. f_equal.
  apply map_ext. intros i. f_equal. lia.
Qed.

Lemma generated_rows_other_task (other : string) cts : forall s ids k,
  other <> taskId ->
  filter (fun q => String.eqb (q_task_id q) other)
         (generated_rows taskId cts s ids k) = [].
Proof.
  induction cts as [|[c t] rest IH]; intros s ids k Hne; [reflexivity|].
  cbn [generated_rows filter generated_row q_task_id].
  assert (H : String.eqb taskId other = false)
    by (apply String.eqb_neq; congruence).
  rewrite H. now apply IH.
Qed.

Lemma generated_rows_count_answered cts : forall s ids k,
  count_answered (generated_rows taskId cts s ids k) = 0.
Proof.
  induction cts as [|[c t] rest IH]; intros; [reflexivity|].
  cbn [generated_rows count_answered generated_row q_answer]. apply IH.
Qed.

Lemma select_task_update_status (status other : string) (d : Db) :
  Sql.select_task other (Sql.update_task_status status taskId d)
  = option_map (fun t => if String.eqb (task_id t) taskId
                         then mkTask (task_id t) status else t)
               (Sql.select_task other d).
Proof.
  unfold Sql.select_task, Sql.update_task_status. cbn [tasks].
  induction (tasks d) as [|t l IH]; [reflexivity|].
  cbn [map find].
  assert (Hid : task_id (if String.eqb (task_id t) taskId
                         then mkTask (task_id t) status else t) = task_id t)
    by (now destruct (String.eqb (task_id t) taskId)).
  rewrite Hid. now destruct (String.eqb (task_id t) other).
Qed.

(** The world a successful generate call leaves. *)
Lemma generate_world_success (w w' : World) (st : PlanningState) :
  respond (PlanningRoute.POST taskId) w = (Json st, w') ->
  w' = mkWorld (mkDb (tasks (Sql.update_task_status "planning" taskId (db w)))
                     (planning_questions (db w) ++ questions st)
                     (planning_specs (db w)))
               (clock w) (entropy w) (drawn w + List.length catalogue).
Proof.
  intros H. destruct (generate_success _ _ _ _ H) as (_ & _ & Hqs & _).
  rewrite generate_cases in H.
  destruct (Sql.select_task taskId (db w)); [|discriminate].
  destruct (0 <? Sql.count_questions taskId (db w)); [discriminate|].
  cbn zeta in H. injection H as _ <-. now rewrite Hqs.
Qed.

End GenerateFrame.

(** X6: a generate call that ends in an error response has written
    nothing, not even the task status: it is a 404 for a task that does not
    exist and a 400 for a task that has questions. *)
Theorem generate_refusal_leaves_world :
  forall (w w' : World) (taskId : string) (status : Z) (error : string),
    respond (PlanningRoute.POST taskId) w = (Error status error, w') ->
    w' = w
    /\ ((status = 404 /\ ~ task_exists (db w) taskId)
        \/ (status = 400 /\ task_exists (db w) taskId
            /\ questions_of (db w) taskId <> [])).
Proof.
  intros w w' taskId status error H. rewrite generate_cases in H.
  destruct (Sql.select_task taskId (db w)) eqn:Et.
  - destruct (Z.ltb_spec 0 (Sql.count_questions taskId (db w))) as [Hc|Hc].
    + unfold AlreadyGenerated in H. injection H as <- _ <-.
      split; [reflexivity|]. right. split; [reflexivity|]. split.
      * apply find_some in Et as [Hin Heq]. apply String.eqb_eq in Heq.
        now exists t.
      * intros Hnil. apply count_questions_zero in Hnil. lia.
    + discriminate.
  - unfold TaskNotFound in H. injection H as <- _ <-.
    split; [reflexivity|]. left. split; [reflexivity|].
    now apply select_task_none.
Qed.

Lemma generate_refusal_leaves_world_witness :
  snd (respond (PlanningRoute.POST "task-9") Sample.generated) = Sample.generated.
Proof.
  destruct (respond (PlanningRoute.POST "task-9") Sample.generated)
    as [r w'] eqn:E.
  assert (Hr : r = Error 404 "Task not found")
    by (vm_compute in E; injection E as <- _; reflexivity).
  subst r. cbn [snd].
  exact (proj1 (generate_refusal_leaves_world _ _ _ _ _ E)).
Defined.

(** X7: a successful generate call sets the status of the task's row to
    "planning" and leaves every other task row as it was; it appends its 16
    questions after the existing question records, which it does not touch;
    it leaves the specs and the clock alone; and it draws exactly 16
    identifiers, giving the i-th question the i-th value drawn. *)
Theorem generate_frame :
  forall (w w' : World) (taskId : string) (st : PlanningState),
    respond (PlanningRoute.POST taskId) w = (Json st, w') ->
    tasks (db w')
    = map (fun t => if String.eqb (task_id t) taskId
                    then mkTask (task_id t) "planning" else t)
          (tasks (db w))
    /\ planning_questions (db w') = planning_questions (db w) ++ questions st
    /\ List.length (questions st) = 16%nat
    /\ planning_specs (db w') = planning_specs (db w)
    /\ clock w' = clock w /\ entropy w' = entropy w
    /\ drawn w' = (drawn w + 16)%nat
    /\ map q_id (questions st)
       = map (fun i => entropy w (drawn w + i)%nat) (seq 0 16).
Proof.
  intros w w' taskId st H.
  rewrite (generate_world_success _ _ _ _ H). cbn [db tasks planning_questions
    planning_specs clock entropy drawn].
  destruct (generate_success _ _ _ _ H) as (_ & _ & Hqs & _).
  repeat (split; [reflexivity|]).
  rewrite Hqs, generated_rows_length, generated_rows_ids.
  repeat (split; [reflexivity|]). reflexivity.
Qed.

Lemma generate_frame_witness :
  tasks (db Sample.generated) = [mkTask "task-1" "planning"]
  /\ drawn Sample.generated = 16%nat.
Proof.
  destruct (respond (PlanningRoute.POST "task-1") Sample.fresh) as [r w'] eqn:E.
  assert (Hr : exists st, r = Json st)
    by (vm_compute in E; injection E as <- _; eexists; reflexivity).
  destruct Hr as (st & ->).
  destruct (generate_frame _ _ _ _ E) as (Ht & _ & _ & _ & _ & _ & Hd & _).
  assert (Hw : Sample.generated = w') by (unfold Sample.generated; now rewrite E).
  rewrite Hw, Ht, Hd. split; reflexivity.
Defined.

(** X8: a generate call for one task, whatever its outcome, does not
    change what reading any other task returns. *)
Theorem generate_keeps_other_tasks :
  forall (w : World) (taskId other : string),
    other <> taskId ->
    fst (respond (PlanningRoute.GET other)
                 (snd (respond (PlanningRoute.POST taskId) w)))
    = fst (respond (PlanningRoute.GET other) w).
Proof.
  intros w taskId other Hne.
  destruct (generate_world w taskId) as [->|(st & E)]; [reflexivity|].
  rewrite (generate_world_success _ _ _ _ E).
  destruct (generate_success _ _ _ _ E) as (_ & _ & Hqs & _).
  rewrite !read_cases. cbn [db].
  change (Sql.select_task other _)
    with (Sql.select_task other (Sql.update_task_status "planning" taskId (db w)))
    at 1.
  rewrite select_task_update_status.
  destruct (Sql.select_task other (db w)); cbn [option_map]; [|reflexivity].
  cbn zeta. cbn [fst]. unfold Sql.select_questions, Sql.select_spec.
  cbn [planning_questions planning_specs].
  rewrite filter_app, Hqs, generated_rows_other_task by exact Hne.
  now rewrite app_nil_r.
Qed.

Lemma generate_keeps_other_tasks_witness :
  fst (respond (PlanningRoute.GET "task-1")
               (snd (respond (PlanningRoute.POST "task-2") Sample2.two_tasks)))
  = fst (respond (PlanningRoute.GET "task-1") Sample2.two_tasks).
Proof. apply generate_keeps_other_tasks. discriminate. Defined.

(** X9: reading a task right after a successful generate call returns the
    questions that call returned, with progress 16 / 0 / 0%. *)
Theorem generate_then_read :
  forall (w w' : World) (taskId : string) (st : PlanningState),
    respond (PlanningRoute.POST taskId) w = (Json st, w') ->
    exists st',
      respond (PlanningRoute.GET taskId) w' = (Json st', w')
      /\ questions st' = questions st
      /\ progress st' = mkProgress 16 0 0
      /\ progress st = mkProgress 16 0 0
      /\ spec st' = Sql.select_spec taskId (db w).
Proof.
  intros w w' taskId st H.
  destruct (generate_success _ _ _ _ H)
    as ((t & Hin & Hid) & _ & Hqs & Hsel & _ & Hspecs & Hprog & _).
  pose proof (generate_world_success _ _ _ _ H) as Hw.
  rewrite read_cases.
  assert (Htask : Sql.select_task taskId (db w') <> None).
  { rewrite Hw. cbn [db].
    change (Sql.select_task taskId _)
      with (Sql.select_task taskId (Sql.update_task_status "planning" taskId (db w))).
    rewrite select_task_update_status.
    destruct (Sql.select_task taskId (db w)) eqn:E; [discriminate|].
    exfalso. apply select_task_none in E. apply E. now exists t. }
  destruct (Sql.select_task taskId (db w')); [|contradiction].
  cbn zeta. eexists. split; [reflexivity|]. cbn [questions progress spec].
  rewrite Hsel. split; [reflexivity|].
  assert (Hp : PlanningRoute.calculate_progress (questions st) = mkProgress 16 0 0).
  { unfold PlanningRoute.calculate_progress.
    rewrite count_answered_filter, Hqs, generated_rows_count_answered,
      generated_rows_length. reflexivity. }
  split; [exact Hp|]. split.
  - rewrite Hprog, Hqs, generated_rows_length. reflexivity.
  - unfold Sql.select_spec. now rewrite Hspecs.
Qed.

Lemma generate_then_read_witness :
  exists st',
    respond (PlanningRoute.GET "task-1") Sample.generated
    = (Json st', Sample.generated)
    /\ progress st' = mkProgress 16 0 0.
Proof.
  destruct (respond (PlanningRoute.POST "task-1") Sample.fresh) as [r w'] eqn:E.
  assert (Hr : exists st, r = Json st)
    by (vm_compute in E; injection E as <- _; eexists; reflexivity).
  destruct Hr as (st & ->).
  assert (Hw : Sample.generated = w') by (unfold Sample.generated; now rewrite E).
  destruct (generate_then_read _ _ _ _ E) as (st' & Hread & _ & Hp & _).
  exists st'. rewrite Hw. split; [exact Hread | exact Hp].
Defined.

(* ------------------------------------------------------------------ *)
(** ** Invariants of the question store *)

Section StoreInvariants.

Lemma choice_options_nonempty (labels : list string) :
  labels <> [] -> PlanningRoute.choice_options labels <> [].
Proof. destruct labels; [contradiction | discriminate]. Qed.

Lemma generated_rows_kind (taskId : string) cts :
  Forall (fun ct => t_options (snd ct) <> Some []) cts ->
  forall s ids k, Forall kind_matches_choices (generated_rows taskId cts s ids k).
Proof.
  induction 1 as [|[c t] rest Hne _ IH]; intros; cbn [generated_rows];
    constructor; [|apply IH].
  unfold kind_matches_choices, generated_row.
  cbn [q_options q_question_type snd] in *.
  destruct (t_options t) as [[|l labels]|]; cbn; congruence.
Qed.

Lemma catalogue_options_nonempty :
  Forall (fun ct => t_options (snd ct) <> Some []) catalogue.
Proof. repeat constructor; discriminate. Qed.

Lemma updated_kind value now questionId (q : PlanningQuestion) :
  kind_matches_choices q -> kind_matches_choices (updated value now questionId q).
Proof.
  unfold updated. now destruct (String.eqb (q_id q) questionId).
Qed.

(** Consecutive sort positions are distinct. *)
Lemma sort_positions_from_NoDup (s : Z) (first count : nat) :
  NoDup (map (fun i => s + Z.of_nat i) (seq first count)).
Proof.
  revert first. induction count as [|count IH]; intros first; [constructor|].
  cbn [seq map]. constructor; [|apply IH].
  intros Hin. apply in_map_iff in Hin as (i & Heq & Hi).
  apply in_seq in Hi. lia.
Qed.

Lemma generated_rows_sort_order_NoDup (taskId : string) cts s ids k :
  NoDup (map q_sort_order (generated_rows taskId cts s ids k)).
Proof.
  rewrite generated_rows_sort_order. apply sort_positions_from_NoDup.
Qed.

(** The question table after any answer call. *)
Lemma answer_rows (w : World) (taskId : string) (body : option AnswerRoute.Body) :
  let rows' := planning_questions
                 (db (snd (respond (AnswerRoute.POST taskId body) w))) in
  rows' = planning_questions (db w)
  \/ exists value questionId,
       rows' = map (updated value (clock w) questionId) (planning_questions (db w)).
Proof.
  cbn zeta. destruct (answer_world w taskId body) as [->|(i & a & ->)];
    [now left|]. right. now exists a, i.
Qed.

(** The question table after any generate call. *)
Lemma generate_rows (w : World) (taskId : string) :
  let rows' := planning_questions
                 (db (snd (respond (PlanningRoute.POST taskId) w))) in
  rows' = planning_questions (db w)
  \/ (questions_of (db w) taskId = []
      /\ rows' = planning_questions (db w)
                 ++ generated_rows taskId catalogue 0 (entropy w) (drawn w)).
Proof.
  cbn zeta. destruct (generate_world w taskId) as [->|(st & E)]; [now left|].
  destruct (generate_success _ _ _ _ E) as (_ & Hnone & Hqs & _ & Hrows & _).
  right. split; [exact Hnone|]. now rewrite Hrows, Hqs.
Qed.

Lemma read_world (w : World) (taskId : string) :
  snd (respond (PlanningRoute.GET taskId) w) = w.
Proof.
  rewrite read_cases. now destruct (Sql.select_task taskId (db w)).
Qed.

End StoreInvariants.

(** X10: the three routes keep the invariant that a question is multiple
    choice exactly when it has a non-empty choice list: if every stored
    question satisfies it before a read, generate or answer call, every
    stored question satisfies it afterwards. *)
Theorem kind_matches_choices_kept :
  forall w : World,
    Forall kind_matches_choices (planning_questions (db w)) ->
    (forall taskId,
        Forall kind_matches_choices
          (planning_questions (db (snd (respond (PlanningRoute.GET taskId) w)))))
    /\ (forall taskId,
          Forall kind_matches_choices
            (planning_questions (db (snd (respond (PlanningRoute.POST taskId) w)))))
    /\ (forall taskId body,
          Forall kind_matches_choices
            (planning_questions
               (db (snd (respond (AnswerRoute.POST taskId body) w))))).
Proof.
  intros w Hinv. split; [|split].
  - intros taskId. now rewrite read_world.
  - intros taskId. destruct (generate_rows w taskId) as [->|[_ ->]]; [exact Hinv|].
    apply Forall_app. split; [exact Hinv|].
    apply generated_rows_kind, catalogue_options_nonempty.
  - intros taskId body.
    destruct (answer_rows w taskId body) as [->|(v & i & ->)]; [exact Hinv|].
    apply Forall_map. eapply Forall_impl; [|exact Hinv].
    intros q. apply updated_kind.
Qed.

Lemma kind_matches_choices_kept_witness :
  Forall kind_matches_choices (planning_questions (db Sample.generated)).
Proof.
  apply (proj1 (proj2 (kind_matches_choices_kept Sample.fresh (Forall_nil _)))
           "task-1").
Defined.

(** X11: the three routes keep sort positions unique within each task. *)
Theorem sort_positions_unique_kept :
  forall w : World,
    sort_positions_unique (db w) ->
    (forall taskId,
        sort_positions_unique (db (snd (respond (PlanningRoute.GET taskId) w))))
    /\ (forall taskId,
          sort_positions_unique (db (snd (respond (PlanningRoute.POST taskId) w))))
    /\ (forall taskId body,
          sort_positions_unique
            (db (snd (respond (AnswerRoute.POST taskId body) w)))).
Proof.
  intros w Hinv. split; [|split].
  - intros taskId. now rewrite read_world.
  - intros taskId t. unfold questions_of.
    destruct (generate_rows w taskId) as [->|[Hnone ->]]; [apply Hinv|].
    rewrite filter_app. destruct (String.eqb_spec t taskId) as [->|Hne].
    + fold (questions_of (db w) taskId). rewrite Hnone, generated_rows_task.
      apply generated_rows_sort_order_NoDup.
    + rewrite generated_rows_other_task, app_nil_r by exact Hne. apply Hinv.
  - intros taskId body t. unfold questions_of.
    destruct (answer_rows w taskId body) as [->|(v & i & ->)]; [apply Hinv|].
    rewrite filter_task_map by apply updated_task.
    rewrite map_map.
    rewrite (map_ext _ q_sort_order) by (intros q; apply updated_sort_order).
    apply Hinv.
Qed.

Lemma sort_positions_unique_kept_witness :
  sort_positions_unique (db Sample.generated).
Proof.
  apply (proj1 (proj2 (sort_positions_unique_kept Sample.fresh
                         (fun _ => NoDup_nil _)))
           "task-1").
Defined.

(** X12: the three routes keep question identifiers unique, the generate
    route provided the 16 identifiers it draws are distinct from one
    another and from those already stored. *)
Theorem ids_unique_kept :
  forall w : World,
    ids_unique (db w) ->
    (forall taskId,
        ids_unique (db (snd (respond (PlanningRoute.GET taskId) w))))
    /\ (forall taskId,
          NoDup (map q_id (planning_questions (db w))
                 ++ map (fun i => entropy w (drawn w + i)%nat) (seq 0 16)) ->
          ids_unique (db (snd (respond (PlanningRoute.POST taskId) w))))
    /\ (forall taskId body,
          ids_unique (db (snd (respond (AnswerRoute.POST taskId body) w)))).
Proof.
  intros w Hinv. unfold ids_unique in *. split; [|split].
  - intros taskId. now rewrite read_world.
  - intros taskId Hfresh.
    destruct (generate_rows w taskId) as [->|[_ ->]]; [exact Hinv|].
    now rewrite map_app, generated_rows_ids.
  - intros taskId body.
    destruct (answer_rows w taskId body) as [->|(v & i & ->)]; [exact Hinv|].
    rewrite map_map.
    now rewrite (map_ext _ q_id) by (intros q; apply updated_id).
Qed.

Lemma ids_unique_kept_witness : ids_unique (db Sample.generated).
Proof.
  apply (proj1 (proj2 (ids_unique_kept Sample.fresh (NoDup_nil _))) "task-1").
  cbn [Sample.fresh db planning_questions map app entropy drawn seq Nat.add].
  repeat (constructor;
          [cbn; intros H; repeat (destruct H as [H|H]; [discriminate H|]); exact H|]).
  constructor.
Defined.

(* ------------------------------------------------------------------ *)
(** ** What a read returns *)

Section ReadOrder.

Lemma insert_by_sort_order_Permutation (q : PlanningQuestion) l :
  Permutation (Sql.insert_by_sort_order q l) (q :: l).
Proof.
  induction l as [|x l IH]; [reflexivity|].
  cbn [Sql.insert_by_sort_order].
  destruct (q_sort_order q <=? q_sort_order x); [reflexivity|].
  rewrite IH. apply perm_swap.
Qed.

Lemma order_by_sort_order_Permutation l :
  Permutation (Sql.order_by_sort_order l) l.
Proof.
  unfold Sql.order_by_sort_order. induction l as [|x l IH]; [reflexivity|].
  cbn [fold_right]. rewrite insert_by_sort_order_Permutation. now constructor.
Qed.

Lemma insert_by_sort_order_sorted (q : PlanningQuestion) l :
  in_sort_order l -> in_sort_order (Sql.insert_by_sort_order q l).
Proof.
  induction l as [|x l IH]; intros Hs.
  - cbn. split; [intros ? []|exact I].
  - cbn [Sql.insert_by_sort_order].
    destruct (Z.leb_spec (q_sort_order q) (q_sort_order x)) as [Hle|Hgt].
    + cbn [in_sort_order] in *. destruct Hs as [Hx Hl]. split; [|now split].
      intros y [<-|Hy]; [exact Hle|]. specialize (Hx y Hy). lia.
    + cbn [in_sort_order] in *. destruct Hs as [Hx Hl]. split; [|now apply IH].
      intros y Hy.
      apply (Permutation_in _ (insert_by_sort_order_Permutation q l)) in Hy.
      destruct Hy as [<-|Hy]; [lia | now apply Hx].
Qed.

Lemma order_by_sort_order_sorted l : in_sort_order (Sql.order_by_sort_order l).
Proof.
  unfold Sql.order_by_sort_order. induction l as [|x l IH]; [exact I|].
  cbn [fold_right]. now apply insert_by_sort_order_sorted.
Qed.

End ReadOrder.

(** X13: a read never writes, whether or not the task exists, and for an
    existing task its questions are exactly the task's stored records (each
    as often as it is stored), arranged in non-decreasing sort order
    whatever their order in the table. *)
Theorem read_returns_sorted_records :
  forall (w : World) (taskId : string),
    snd (respond (PlanningRoute.GET taskId) w) = w
    /\ forall st, fst (respond (PlanningRoute.GET taskId) w) = Json st ->
         Permutation (questions st) (questions_of (db w) taskId)
         /\ in_sort_order (questions st).
Proof.
  intros w taskId. split; [apply read_world|].
  intros st H. rewrite read_cases in H.
  destruct (Sql.select_task taskId (db w)); [|discriminate].
  cbn zeta in H. cbn [fst] in H. injection H as <-. cbn [questions].
  unfold Sql.select_questions. fold (questions_of (db w) taskId).
  split; [apply order_by_sort_order_Permutation | apply order_by_sort_order_sorted].
Qed.

Lemma read_returns_sorted_records_witness :
  exists st,
    fst (respond (PlanningRoute.GET "task-1") Sample.generated) = Json st
    /\ in_sort_order (questions st).
Proof.
  destruct (fst (respond (PlanningRoute.GET "task-1") Sample.generated))
    as [st|status error] eqn:E.
  - exists st. split; [reflexivity|].
    exact (proj2 (proj2 (read_returns_sorted_records Sample.generated "task-1")
                    st E)).
  - vm_compute in E. discriminate.
Defined.

(* ------------------------------------------------------------------ *)
(** ** The shape of the percentage *)

Section ProgressShape.

Lemma progress_shape_upto_200 : forall_counts 200 progress_shape = true.
Proof. vm_compute. reflexivity. Qed.

Lemma progress_shape_facts (a t : Z) :
  0 < t <= 200 -> 0 <= a <= t ->
  0 <= percentage_of a t <= 100
  /\ (percentage_of a t = 0 <-> a = 0)
  /\ (a < t -> percentage_of a t <= percentage_of (a + 1) t).
Proof.
  intros Ht Ha.
  pose proof (forall_counts_sound _ _ progress_shape_upto_200 a t
                ltac:(simpl; lia) Ha) as H.
  unfold progress_shape in H. cbn zeta in H.
  apply andb_true_iff in H as [H Hstep]. apply andb_true_iff in H as [H Hzero].
  apply andb_true_iff in H as [Hlo Hhi].
  apply Z.leb_le in Hlo. apply Z.leb_le in Hhi. apply Bool.eqb_prop in Hzero.
  split; [lia|]. split.
  - rewrite <- !Z.eqb_eq. now rewrite Hzero.
  - intros Hlt. apply orb_true_iff in Hstep as [Heq|Hle].
    + apply Z.eqb_eq in Heq. lia.
    + now apply Z.leb_le.
Qed.

Lemma percentage_monotone (t : Z) (n : nat) :
  forall a, 0 < t <= 200 -> 0 <= a -> a + Z.of_nat n <= t ->
  percentage_of a t <= percentage_of (a + Z.of_nat n) t.
Proof.
  induction n as [|n IH]; intros a Ht Ha Hb.
  - rewrite Z.add_0_r. lia.
  - rewrite Nat2Z.inj_succ in *.
    destruct (progress_shape_facts a t Ht ltac:(lia)) as (_ & _ & Hstep).
    specialize (IH (a + 1) Ht ltac:(lia) ltac:(lia)).
    replace (a + Z.succ (Z.of_nat n)) with (a + 1 + Z.of_nat n) by lia.
    specialize (Hstep ltac:(lia)). lia.
Qed.

End ProgressShape.

(** X14: for a task of up to 200 questions the percentage lies between 0
    and 100, is 0 exactly when no question is answered, and never drops
    when more questions are answered. *)
Theorem percentage_shape :
  forall qs qs' : list PlanningQuestion,
    (0 < List.length qs <= 200)%nat -> List.length qs' = List.length qs ->
    let p := PlanningRoute.calculate_progress qs in
    let p' := PlanningRoute.calculate_progress qs' in
    0 <= percentage p <= 100
    /\ (percentage p = 0 <-> answered p = 0)
    /\ (answered p <= answered p' -> percentage p <= percentage p').
Proof.
  intros qs qs' Hlen Hsame. cbn zeta.
  pose proof (answered_le_total qs) as Hb. pose proof (answered_le_total qs') as Hb'.
  cbn zeta in Hb, Hb'. cbn [PlanningRoute.calculate_progress total answered percentage] in *.
  rewrite Hsame in *.
  set (t := Z.of_nat (List.length qs)) in *.
  set (a := Z.of_nat (List.length (filter _ qs))) in *.
  set (a' := Z.of_nat (List.length (filter _ qs'))) in *.
  assert (Ht : 0 < t <= 200) by (subst t; lia).
  destruct (progress_shape_facts a t Ht Hb) as (Hr & Hz & _).
  split; [exact Hr|]. split; [exact Hz|].
  intros Hle. replace a' with (a + Z.of_nat (Z.to_nat (a' - a))) by lia.
  apply percentage_monotone; lia.
Qed.

Lemma percentage_shape_witness :
  percentage (PlanningRoute.calculate_progress Sample.one_of_three)
  <= percentage (PlanningRoute.calculate_progress Sample.two_of_three).
Proof.
  refine (proj2 (proj2 (percentage_shape Sample.one_of_three Sample.two_of_three
                          _ _)) _).
  - cbn. lia.
  - reflexivity.
  - vm_compute. discriminate.
Defined.

(* ================================================================== *)
(** * Properties of the planning tab *)

(* ------------------------------------------------------------------ *)
(** ** Which question is current *)

Section FindIndex.

Context {A : Type} (p : A -> nat -> bool).

Lemma findIndex_from_none (xs : list A) : forall i,
  (forall j x, nth_error xs j = Some x -> p x (i + j) = false) ->
  Tab.findIndex_from p i xs = -1.
Proof.
  induction xs as [|y xs IH]; intros i H; [reflexivity|].
  cbn [Tab.findIndex_from].
  pose proof (H 0%nat y eq_refl) as Hy. rewrite Nat.add_0_r in Hy. rewrite Hy.
  apply IH. intros j x Hj. rewrite Nat.add_succ_l, <- Nat.add_succ_r.
  now apply H.
Qed.

Lemma findIndex_from_first (xs : list A) : forall i n x,
  nth_error xs n = Some x -> p x (i + n) = true ->
  (forall m y, (m < n)%nat -> nth_error xs m = Some y -> p y (i + m) = false) ->
  Tab.findIndex_from p i xs = Z.of_nat (i + n).
Proof.
  induction xs as [|y xs IH]; intros i n x Hn Hp Hbefore;
    [destruct n; discriminate|].
  cbn [Tab.findIndex_from]. destruct n as [|n].
  - injection Hn as ->. rewrite Nat.add_0_r in *. now rewrite Hp.
  - pose proof (Hbefore 0%nat y ltac:(lia) eq_refl) as Hy.
    rewrite Nat.add_0_r in Hy. rewrite Hy.
    rewrite (IH (S i) n x Hn).
    + f_equal. lia.
    + now rewrite Nat.add_succ_l, <- Nat.add_succ_r.
    + intros m z Hm Hz. rewrite Nat.add_succ_l, <- Nat.add_succ_r.
      apply Hbefore; [lia | exact Hz].
Qed.

Lemma findIndex_from_range (xs : list A) : forall i,
  Tab.findIndex_from p i xs = -1
  \/ exists n x, Tab.findIndex_from p i xs = Z.of_nat (i + n)
                 /\ nth_error xs n = Some x /\ p x (i + n) = true.
Proof.
  induction xs as [|y xs IH]; intros i; [now left|].
  cbn [Tab.findIndex_from]. destruct (p y i) eqn:Ey.
  - right. exists 0%nat, y. rewrite Nat.add_0_r. now repeat split.
  - destruct (IH (S i)) as [->|(n & x & -> & Hn & Hp)]; [now left|].
    right. exists (S n), x. rewrite Nat.add_succ_r. now repeat split.
Qed.

Lemma findIndex_first (xs : list A) (n : nat) :
  is_first p xs n -> Tab.findIndex p xs = Z.of_nat n.
Proof.
  intros [(x & Hn & Hp) Hbefore].
  exact (findIndex_from_first xs 0 n x Hn Hp Hbefore).
Qed.

Lemma findIndex_none (xs : list A) :
  (forall j x, nth_error xs j = Some x -> p x j = false) ->
  Tab.findIndex p xs = -1.
Proof. intros H. now apply findIndex_from_none. Qed.

Lemma findIndex_range (xs : list A) :
  Tab.findIndex p xs = -1
  \/ exists n x, Tab.findIndex p xs = Z.of_nat n
                 /\ nth_error xs n = Some x /\ p x n = true.
Proof. exact (findIndex_from_range xs 0). Qed.

End FindIndex.

Lemma Forall_nth_error {A} (P : A -> Prop) (l : list A) :
  Forall P l -> forall n x, nth_error l n = Some x -> P x.
Proof.
  intros H n x Hn. rewrite Forall_forall in H. apply H.
  eapply nth_error_In. exact Hn.
Qed.

(** X15: when the planning state is loaded the tab makes the first
    unanswered question current, and keeps the current index when every
    question is answered. *)
Theorem load_opens_first_unanswered :
  forall (data : PlanningState) (currentQuestionIndex : Z),
    (forall n, is_first (fun q _ => Tab.unanswered q) (questions data) n ->
               Tab.loadPlanningState_index data currentQuestionIndex = Z.of_nat n)
    /\ (Forall (fun q => Tab.unanswered q = false) (questions data) ->
        Tab.loadPlanningState_index data currentQuestionIndex
        = currentQuestionIndex).
Proof.
  intros data current. unfold Tab.loadPlanningState_index. split.
  - intros n Hfirst. rewrite (findIndex_first _ _ _ Hfirst).
    destruct (Z.leb_spec 0 (Z.of_nat n)); [reflexivity | lia].
  - intros Hall. rewrite findIndex_none; [reflexivity|].
    intros j x Hj. exact (Forall_nth_error _ _ Hall j x Hj).
Qed.

Lemma load_opens_first_unanswered_witness :
  Tab.loadPlanningState_index
    (mkState Sample.two_of_three None (mkProgress 3 2 67) false) 0
  = 2.
Proof.
  apply (proj1 (load_opens_first_unanswered
                  (mkState Sample.two_of_three None (mkProgress 3 2 67) false) 0)
           2%nat).
  split.
  - exists (Sample.open_question 2). split; reflexivity.
  - intros m x Hm Hx. destruct m as [|[|m]]; [| |lia]; injection Hx as <-;
      reflexivity.
Defined.

(** X16: after a successful answer, the index [answerQuestion] sets is the
    first unanswered question after the current one, as the state the
    handler holds shows them; when there is none, the first unanswered
    question of that state (which may be the current one); when that state
    has no unanswered question it sets no index. *)
Theorem answer_moves_to_next_unanswered :
  forall (state : PlanningState) (currentQuestionIndex : Z),
    let later := fun (q : PlanningQuestion) (idx : nat) =>
                   (currentQuestionIndex <? Z.of_nat idx) && Tab.unanswered q in
    (forall n, is_first later (questions state) n ->
               Tab.answerQuestion_index state currentQuestionIndex
               = Some (Z.of_nat n))
    /\ ((forall m q, nth_error (questions state) m = Some q ->
                     later q m = false) ->
        forall n, is_first (fun q _ => Tab.unanswered q) (questions state) n ->
                  Tab.answerQuestion_index state currentQuestionIndex
                  = Some (Z.of_nat n))
    /\ (Forall (fun q => Tab.unanswered q = false) (questions state) ->
        Tab.answerQuestion_index state currentQuestionIndex = None).
Proof.
  intros state current later. unfold Tab.answerQuestion_index.
  fold later. split; [|split].
  - intros n Hfirst. rewrite (findIndex_first _ _ _ Hfirst).
    destruct (Z.leb_spec 0 (Z.of_nat n)); [reflexivity | lia].
  - intros Hnone n Hfirst. rewrite (findIndex_none later) by exact Hnone.
    cbn [Z.leb Z.compare]. rewrite (findIndex_first _ _ _ Hfirst).
    destruct (Z.leb_spec 0 (Z.of_nat n)); [reflexivity | lia].
  - intros Hall. rewrite !findIndex_none; [reflexivity| |].
    + intros j x Hj. exact (Forall_nth_error _ _ Hall j x Hj).
    + intros j x Hj. unfold later.
      rewrite (Forall_nth_error _ _ Hall j x Hj). apply andb_false_r.
Qed.

Lemma answer_moves_to_next_unanswered_witness :
  Tab.answerQuestion_index
    (mkState Sample.one_of_three None (mkProgress 3 1 33) false) 1
  = Some 2.
Proof.
  apply (proj1 (answer_moves_to_next_unanswered
                  (mkState Sample.one_of_three None (mkProgress 3 1 33) false) 1)
           2%nat).
  split.
  - exists (Sample.open_question 2). split; reflexivity.
  - intros m x Hm Hx. destruct m as [|[|m]]; [| |lia]; injection Hx as <-;
      reflexivity.
Defined.

(** X17: every index the tab sets is a position of the question list: from
    a valid current index, Previous, Next, loading and answering all give a
    valid index; Previous stops at 0, and Next is offered exactly when the
    current question is not the last. *)
Theorem tab_index_stays_valid :
  forall (state : PlanningState) (currentQuestionIndex : Z),
    let n := Z.of_nat (List.length (questions state)) in
    0 <= currentQuestionIndex < n ->
    (0 <= Tab.previous currentQuestionIndex < n
     /\ Tab.previous currentQuestionIndex
        = if currentQuestionIndex =? 0 then 0 else currentQuestionIndex - 1)
    /\ (Tab.next state currentQuestionIndex
        = if currentQuestionIndex =? n - 1 then None
          else Some (currentQuestionIndex + 1))
    /\ (forall i, Tab.next state currentQuestionIndex = Some i -> 0 <= i < n)
    /\ 0 <= Tab.loadPlanningState_index state currentQuestionIndex < n
    /\ (forall i, Tab.answerQuestion_index state currentQuestionIndex = Some i ->
                  0 <= i < n).
Proof.
  intros state current n Hrange.
  assert (Hfind : forall (p : PlanningQuestion -> nat -> bool),
             Tab.findIndex p (questions state) = -1
             \/ 0 <= Tab.findIndex p (questions state) < n).
  { intros p. destruct (findIndex_range p (questions state))
      as [->|(k & x & -> & Hk & _)]; [now left|right].
    assert ((k < List.length (questions state))%nat)
      by (apply nth_error_Some; congruence).
    subst n. lia. }
  split; [|split; [|split; [|split]]].
  - unfold Tab.previous. destruct (Z.eqb_spec current 0); split; lia.
  - unfold Tab.next. fold n.
    destruct (Z.ltb_spec current (n - 1)), (Z.eqb_spec current (n - 1));
      try reflexivity; lia.
  - unfold Tab.next. fold n. intros i.
    destruct (Z.ltb_spec current (n - 1)); [|discriminate].
    intros Hi. injection Hi as <-. lia.
  - unfold Tab.loadPlanningState_index.
    destruct (Hfind (fun q _ => Tab.unanswered q)) as [->|H]; [exact Hrange|].
    destruct (Z.leb_spec 0 (Tab.findIndex (fun q _ => Tab.unanswered q)
                                          (questions state))); lia.
  - unfold Tab.answerQuestion_index. intros i.
    set (later := fun (q : PlanningQuestion) (idx : nat) =>
                    (current <? Z.of_nat idx) && Tab.unanswered q).
    destruct (Hfind later) as [->|H1].
    + cbn [Z.leb Z.compare].
      destruct (Hfind (fun q _ => Tab.unanswered q)) as [->|H2]; [discriminate|].
      destruct (Z.leb_spec 0 (Tab.findIndex (fun q _ => Tab.unanswered q)
                                            (questions state)));
        [|discriminate].
      intros Hi. injection Hi as <-. exact H2.
    + destruct (Z.leb_spec 0 (Tab.findIndex later (questions state))); [|lia].
      intros Hi. injection Hi as <-. exact H1.
Qed.

Lemma tab_index_stays_valid_witness :
  Tab.previous 0 = 0
  /\ Tab.next (mkState Sample.one_of_three None (mkProgress 3 1 33) false) 2 = None.
Proof.
  destruct (tab_index_stays_valid
              (mkState Sample.one_of_three None (mkProgress 3 1 33) false) 0
              ltac:(cbn; lia)) as ((_ & Hprev) & _).
  destruct (tab_index_stays_valid
              (mkState Sample.one_of_three None (mkProgress 3 1 33) false) 2
              ltac:(cbn; lia)) as (_ & Hnext & _).
  split; [exact Hprev | exact Hnext].
Defined.

(* ------------------------------------------------------------------ *)
(** ** The sidebar groups *)

Section Groups.

Lemma category_eqb_spec (a b : PlanningCategory) :
  reflect (a = b) (Tab.category_eqb a b).
Proof. destruct a, b; constructor; congruence. Qed.

Lemma group_of_cons c k es rest :
  group_of c ((k, es) :: rest)
  = if Tab.category_eqb c k then es else group_of c rest.
Proof.
  unfold group_of. cbn [find fst]. now destruct (Tab.category_eqb c k).
Qed.

Lemma category_eqb_sym (a b : PlanningCategory) :
  Tab.category_eqb a b = Tab.category_eqb b a.
Proof. destruct a, b; reflexivity. Qed.

Lemma group_of_push (c : PlanningCategory) (e : Tab.Indexed) acc :
  forall c',
    group_of c' (Tab.push c e acc)
    = if Tab.category_eqb c c' then group_of c' acc ++ [e] else group_of c' acc.
Proof.
  induction acc as [|[k es] rest IH]; intros c'.
  - cbn [Tab.push]. rewrite group_of_cons, (category_eqb_sym c' c).
    now destruct (Tab.category_eqb c c').
  - cbn [Tab.push]. destruct (category_eqb_spec c k) as [Heq|Hck].
    + subst k. rewrite !group_of_cons, (category_eqb_sym c' c).
      now destruct (Tab.category_eqb c c').
    + rewrite !group_of_cons, IH.
      destruct (category_eqb_spec c' k) as [Heq|Hne]; [|reflexivity].
      subst k. destruct (category_eqb_spec c c'); [contradiction|reflexivity].
Qed.

Lemma push_keys (c : PlanningCategory) (e : Tab.Indexed) acc :
  map fst (Tab.push c e acc)
  = if existsb (Tab.category_eqb c) (map fst acc)
    then map fst acc else map fst acc ++ [c].
Proof.
  induction acc as [|[k es] rest IH]; [reflexivity|].
  cbn [Tab.push map fst existsb].
  destruct (Tab.category_eqb c k); cbn [orb map fst]; [reflexivity|].
  rewrite IH. now destruct (existsb _ _).
Qed.

Lemma push_keys_NoDup (c : PlanningCategory) (e : Tab.Indexed) acc :
  NoDup (map fst acc) -> NoDup (map fst (Tab.push c e acc)).
Proof.
  intros Hnd. rewrite push_keys.
  destruct (existsb (Tab.category_eqb c) (map fst acc)) eqn:E; [exact Hnd|].
  apply NoDup_app; [exact Hnd | repeat constructor; intros [] |].
  intros k Hk [Heq|[]]. subst k.
  assert (existsb (Tab.category_eqb c) (map fst acc) = true).
  { apply existsb_exists. exists c. split; [exact Hk|].
    now destruct (category_eqb_spec c c). }
  congruence.
Qed.

Lemma push_nonempty (c : PlanningCategory) (e : Tab.Indexed) acc :
  Forall (fun g => snd g <> []) acc ->
  Forall (fun g => snd g <> []) (Tab.push c e acc).
Proof.
  induction acc as [|[k es] rest IH]; intros Hall; cbn [Tab.push].
  - constructor; [discriminate | constructor].
  - inversion Hall as [|? ? Hk Hrest]; subst.
    destruct (Tab.category_eqb c k); constructor.
    + cbn [snd]. destruct es; discriminate.
    + exact Hrest.
    + exact Hk.
    + now apply IH.
Qed.

(** The grouping loop, from any accumulator. *)
Lemma grouping_invariant (qs : list PlanningQuestion) :
  forall i acc done,
    NoDup (map fst acc) -> Forall (fun g => snd g <> []) acc ->
    (forall c, group_of c acc
               = filter (fun e => Tab.category_eqb (q_category (fst e)) c) done) ->
    let groups :=
      Tab.reduce_from (fun acc q idx => Tab.push (q_category q) (q, idx) acc)
                      i qs acc in
    NoDup (map fst groups) /\ Forall (fun g => snd g <> []) groups
    /\ forall c, group_of c groups
                 = filter (fun e => Tab.category_eqb (q_category (fst e)) c)
                          (done ++ combine qs (seq i (List.length qs))).
Proof.
  induction qs as [|q qs IH]; intros i acc done Hnd Hne Hgroups; cbn zeta.
  - cbn [Tab.reduce_from List.length seq combine]. rewrite app_nil_r.
    now repeat split.
  - cbn [Tab.reduce_from List.length seq combine].
    specialize (IH (S i) (Tab.push (q_category q) (q, i) acc) (done ++ [(q, i)])
                   (push_keys_NoDup _ _ _ Hnd) (push_nonempty _ _ _ Hne)).
    cbn zeta in IH. rewrite <- app_assoc in IH. cbn [app] in IH. apply IH.
    intros c. rewrite group_of_push, filter_app, Hgroups. cbn [filter fst].
    destruct (Tab.category_eqb (q_category q) c); [reflexivity|].
    now rewrite app_nil_r.
Qed.

End Groups.

(** X18: the sidebar grouping puts every question, with its position in
    the list, under its own category and nowhere else: each category has at
    most one group, no group is empty, and the group of a category lists
    exactly the questions of that category in list order. *)
Theorem grouped_by_category_partitions :
  forall qs : list PlanningQuestion,
    let groups := Tab.groupedByCategory qs in
    NoDup (map fst groups)
    /\ Forall (fun g => snd g <> []) groups
    /\ forall c, group_of c groups
                 = filter (fun e => Tab.category_eqb (q_category (fst e)) c)
                          (indexed qs).
Proof.
  intros qs.
  exact (grouping_invariant qs 0 [] [] (NoDup_nil _) (Forall_nil _)
           (fun c => eq_refl)).
Qed.

(** X19: for the questions a successful generate call returns, the
    sidebar shows the eight categories in their fixed order and, read from
    top to bottom, the questions in list order with positions 0 to 15. *)
Theorem generated_sidebar_in_order :
  forall (w w' : World) (taskId : string) (st : PlanningState),
    respond (PlanningRoute.POST taskId) w = (Json st, w') ->
    let groups := Tab.groupedByCategory (questions st) in
    map fst groups = PlanningRoute.categories
    /\ flat_map snd groups = indexed (questions st)
    /\ map snd (flat_map snd groups) = seq 0 16.
Proof.
  intros w w' taskId st H.
  destruct (generate_success _ _ _ _ H) as (_ & _ & Hqs & _).
  cbn zeta. rewrite Hqs. generalize (entropy w) (drawn w). intros ids k.
  repeat split.
Qed.

Lemma generated_sidebar_in_order_witness :
  map fst (Tab.groupedByCategory (questions Sample2.generated_state))
  = PlanningRoute.categories.
Proof.
  destruct (respond (PlanningRoute.POST "task-1") Sample.fresh) as [r w'] eqn:E.
  assert (Hr : exists st, r = Json st /\ questions st
                                         = questions Sample2.generated_state).
  { vm_compute in E. injection E as <- _. eexists. split; reflexivity. }
  destruct Hr as (st & -> & Hq). rewrite <- Hq.
  exact (proj1 (generated_sidebar_in_order _ _ _ _ E)).
Defined.

(* ------------------------------------------------------------------ *)
(** ** What the tab sends, and what it shows afterwards *)

Section TabRequests.

Variables (w : World) (taskId : string) (q : PlanningQuestion).
Hypotheses (Hin : In q (planning_questions (db w)))
           (Htask : q_task_id q = taskId)
           (Hid : q_id q <> "")
           (Hspec : ~ has_spec (db w) taskId).

(** An answer call for an existing question of an unlocked task. *)
Lemma answer_call_succeeds (value : string) :
  value <> "" ->
  exists r,
    answer_call taskId (q_id q) value w
    = (Json r, mkWorld (Sql.update_answer value (clock w) (q_id q) (db w))
                       (clock w) (entropy w) (drawn w))
    /\ q_id r = q_id q /\ q_answer r = Some value
    /\ q_answered_at r = Some (clock w).
Proof.
  intros Hv.
  destruct (Sql.select_question_of_task (q_id q) taskId (db w)) as [q0|] eqn:Ef.
  - destruct (answer_accepted w taskId (q_id q) value q0 Hid Hv Ef
                (proj2 (select_spec_none _ _) Hspec)) as (q1 & _ & Hq1 & Hres).
    exists (Sql.set_answer value (clock w) q1). now repeat split.
  - exfalso.
    exact (proj1 (select_question_of_task_none _ _ _) Ef q Hin eq_refl Htask).
Qed.

End TabRequests.

Section Strings.

Lemma prefix_append (p s : string) : String.prefix p (String.append p s) = true.
Proof.
  induction p as [|c p IH]; cbn [String.append String.prefix].
  - now destruct s.
  - destruct (ascii_dec c c); [exact IH | contradiction].
Qed.

Lemma drop_append (p s : string) :
  Tab.drop (String.length p) (String.append p s) = s.
Proof. induction p as [|c p IH]; [reflexivity | exact IH]. Qed.

Lemma remove_first_prefix (p s : string) :
  p <> "" -> Tab.remove_first p (String.append p s) = s.
Proof.
  intros Hp. destruct p as [|c p]; [contradiction|].
  cbn [String.append Tab.remove_first].
  change (String c (String.append p s)) with (String.append (String c p) s).
  rewrite prefix_append. apply drop_append.
Qed.

Lemma append_nonempty (p s : string) : p <> "" -> String.append p s <> "".
Proof. destruct p; [contradiction | discriminate]. Qed.

End Strings.

(** X20: whatever the user does to an existing question of an unlocked
    task (an option button with a non-empty label, Submit under Other, or
    Save Answer), the call the tab makes, if it makes one, names that
    question with a non-empty value, so the answer route accepts it and
    stores the value sent. *)
Theorem tab_requests_are_accepted :
  forall (w : World) (taskId : string) (q : PlanningQuestion)
         (otherText : string -> option string) (action : Tab.Action)
         (questionId value : string),
    In q (planning_questions (db w)) -> q_task_id q = taskId ->
    q_id q <> "" -> ~ has_spec (db w) taskId ->
    (forall opt, action = Tab.ClickOption opt -> option_label opt <> "") ->
    Tab.request otherText q action = Some (questionId, value) ->
    questionId = q_id q /\ value <> ""
    /\ exists r w',
         answer_call taskId questionId value w = (Json r, w')
         /\ q_answer r = Some value
         /\ In (Sql.set_answer value (clock w) q) (planning_questions (db w')).
Proof.
  intros w taskId q otherText action i v Hin Htask Hid Hspec Hlabel Hreq.
  assert (Hiv : i = q_id q /\ v <> "").
  { destruct action as [opt| |]; cbn [Tab.request] in Hreq.
    - destruct (Tab.isOther opt); [discriminate|]. injection Hreq as <- <-.
      split; [reflexivity|]. now apply Hlabel.
    - destruct (Js.truthy (otherText (q_id q))) eqn:Et; [|discriminate].
      apply truthy_inv in Et as (t & Ht & Hne). rewrite Ht in Hreq.
      cbn [option_map] in Hreq. injection Hreq as <- <-.
      split; [reflexivity | discriminate].
    - destruct (Js.truthy (otherText (q_id q))) eqn:Et; [|discriminate].
      apply truthy_inv in Et as (t & Ht & Hne). rewrite Ht in Hreq.
      cbn [option_map] in Hreq. injection Hreq as <- <-. now split. }
  destruct Hiv as [-> Hv]. split; [reflexivity|]. split; [exact Hv|].
  destruct (answer_call_succeeds w taskId q Hin Htask Hid Hspec v Hv)
    as (r & Hr & _ & Ha & _).
  exists r. eexists. split; [exact Hr|]. split; [exact Ha|].
  cbn [db]. unfold Sql.update_answer. cbn [planning_questions].
  apply in_map_iff. exists q. now rewrite String.eqb_refl.
Qed.

Lemma tab_requests_are_accepted_witness :
  exists r w',
    answer_call "task-1" (q_id Sample.first_question) "Generate leads/sales"
                Sample.generated
    = (Json r, w')
    /\ q_answer r = Some "Generate leads/sales".
Proof.
  destruct (tab_requests_are_accepted Sample.generated "task-1"
              Sample.first_question no_text
              (Tab.ClickOption Sample2.leads_option)
              (q_id Sample.first_question) "Generate leads/sales")
    as (_ & _ & r & w' & Hr & Ha & _).
  - vm_compute. left. reflexivity.
  - reflexivity.
  - vm_compute. discriminate.
  - intros (s & Hs & _). vm_compute in Hs. exact Hs.
  - intros opt Heq. injection Heq as <-. discriminate.
  - reflexivity.
  - exists r, w'. split; [exact Hr | exact Ha].
Defined.

(** X21: after the option button of an existing question of an unlocked
    task is clicked (any option but Other, with a non-empty label), the
    record the route returns shows that option as selected; when the label
    does not start with "Other:" the selected options are exactly those
    with that label. *)
Theorem clicked_option_is_selected :
  forall (w : World) (taskId : string) (q : PlanningQuestion)
         (opt : PlanningQuestionOption),
    In q (planning_questions (db w)) -> q_task_id q = taskId ->
    q_id q <> "" -> ~ has_spec (db w) taskId ->
    option_label opt <> "" -> Tab.isOther opt = false ->
    exists r w',
      Tab.request no_text q (Tab.ClickOption opt)
      = Some (q_id q, option_label opt)
      /\ answer_call taskId (q_id q) (option_label opt) w = (Json r, w')
      /\ Tab.isSelected r opt = true
      /\ (String.prefix "Other:" (option_label opt) = false ->
          forall o, Tab.isSelected r o = true
                    <-> option_label o = option_label opt).
Proof.
  intros w taskId q opt Hin Htask Hid Hspec Hlabel Hother.
  destruct (answer_call_succeeds w taskId q Hin Htask Hid Hspec _ Hlabel)
    as (r & Hr & _ & Ha & _).
  exists r. eexists. split; [cbn [Tab.request]; now rewrite Hother|].
  split; [exact Hr|]. unfold Tab.isSelected. rewrite Ha.
  split; [now rewrite String.eqb_refl|].
  intros Hprefix o. rewrite Hprefix. cbn [andb]. rewrite orb_false_r.
  rewrite String.eqb_eq. split; congruence.
Qed.

Lemma clicked_option_is_selected_witness :
  exists r w',
    answer_call "task-1" (q_id Sample.first_question) "Generate leads/sales"
                Sample.generated
    = (Json r, w')
    /\ Tab.isSelected r Sample2.leads_option = true.
Proof.
  destruct (clicked_option_is_selected Sample.generated "task-1"
              Sample.first_question Sample2.leads_option)
    as (r & w' & _ & Hr & Hs & _).
  - vm_compute. left. reflexivity.
  - reflexivity.
  - vm_compute. discriminate.
  - intros (s & Hs & _). vm_compute in Hs. exact Hs.
  - discriminate.
  - reflexivity.
  - exists r, w'. split; [exact Hr | exact Hs].
Defined.

(** X22: the Other round trip.  Submitting a non-empty text under Other
    for an existing question of an unlocked task sends "Other: " followed
    by the text; the record the route returns shows every option labelled
    Other as selected, keeps the text input open under it, and a tab with
    nothing typed shows the text again in that input. *)
Theorem other_text_round_trip :
  forall (w : World) (taskId : string) (q : PlanningQuestion)
         (otherText : string -> option string) (typed : string),
    In q (planning_questions (db w)) -> q_task_id q = taskId ->
    q_id q <> "" -> ~ has_spec (db w) taskId ->
    otherText (q_id q) = Some typed -> typed <> "" ->
    exists r w',
      Tab.request otherText q Tab.SubmitOther
      = Some (q_id q, String.append "Other: " typed)
      /\ answer_call taskId (q_id q) (String.append "Other: " typed) w
         = (Json r, w')
      /\ (forall o, Tab.isOther o = true ->
                    Tab.isSelected r o = true
                    /\ Tab.otherInputShown no_text r o = true)
      /\ Tab.otherInputValue no_text r = typed
      /\ Tab.otherInputValue otherText r = typed.
Proof.
  intros w taskId q otherText typed Hin Htask Hid Hspec Htext Htyped.
  assert (Hv : String.append "Other: " typed <> "")
    by (apply append_nonempty; discriminate).
  destruct (answer_call_succeeds w taskId q Hin Htask Hid Hspec _ Hv)
    as (r & Hr & Hrid & Ha & _).
  assert (Hprefix : String.prefix "Other:" (String.append "Other: " typed) = true)
    by reflexivity.
  exists r. eexists. split.
  { cbn [Tab.request]. rewrite Htext, (truthy_nonempty _ Htyped). reflexivity. }
  split; [exact Hr|]. split; [|split].
  - intros o Ho. unfold Tab.isSelected, Tab.otherInputShown. rewrite Ha, Ho, Hprefix.
    unfold Tab.isOther in Ho. rewrite Ho. split; [apply orb_true_r|].
    cbn [andb]. apply orb_true_r.
  - unfold Tab.otherInputValue, no_text, Tab.or_else. cbn [Js.truthy].
    rewrite Ha. cbn [option_map].
    rewrite (remove_first_prefix "Other: " typed) by discriminate.
    now rewrite (truthy_nonempty _ Htyped).
  - unfold Tab.otherInputValue, Tab.or_else. rewrite Hrid, Htext.
    now rewrite (truthy_nonempty _ Htyped).
Qed.

Lemma other_text_round_trip_witness :
  Tab.isSelected Sample2.other_answered Sample2.other_option = true
  /\ exists r w',
       answer_call "task-1" (q_id Sample.first_question) "Other: a newsletter"
                   Sample.generated
       = (Json r, w')
       /\ Tab.otherInputValue no_text r = "a newsletter".
Proof.
  split; [reflexivity|].
  destruct (other_text_round_trip Sample.generated "task-1" Sample.first_question
              (fun _ => Some "a newsletter") "a newsletter")
    as (r & w' & _ & Hr & _ & Hvalue & _).
  - vm_compute. left. reflexivity.
  - reflexivity.
  - vm_compute. discriminate.
  - intros (s & Hs & _). vm_compute in Hs. exact Hs.
  - reflexivity.
  - discriminate.
  - exists r, w'. split; [exact Hr | exact Hvalue].
Defined.

(** X23: what the tab renders for the state a read returns: the start
    button when the task has no questions; the locked spec, with its text,
    when the task has questions and a Spec; otherwise the questions, with
    the lock button exactly when the percentage is 100.  Right after a
    successful generate call it renders the questions without the lock
    button. *)
Theorem tab_view_of_read :
  (forall (w : World) (taskId : string) (st : PlanningState),
      fst (respond (PlanningRoute.GET taskId) w) = Json st ->
      let view := PlanningTab.PlanningTab false (Some st) in
      (questions_of (db w) taskId = [] -> view = PlanningTab.StartPlanning)
      /\ (questions_of (db w) taskId <> [] ->
          forall s, Sql.select_spec taskId (db w) = Some s ->
                    view = PlanningTab.SpecLocked (spec_markdown s))
      /\ (questions_of (db w) taskId <> [] -> ~ has_spec (db w) taskId ->
          view = PlanningTab.Questions (percentage (progress st) =? 100)))
  /\ (forall (w w' : World) (taskId : string) (st : PlanningState),
        respond (PlanningRoute.POST taskId) w = (Json st, w') ->
        PlanningTab.PlanningTab false (Some st) = PlanningTab.Questions false).
Proof.
  split.
  - intros w taskId st H. rewrite read_cases in H.
    destruct (Sql.select_task taskId (db w)); [|discriminate].
    cbn zeta in H. cbn [fst] in H. injection H as <-. cbn zeta.
    unfold PlanningTab.PlanningTab. cbn [questions isLocked spec progress].
    assert (Hlen : List.length (Sql.select_questions taskId (db w))
                   = List.length (questions_of (db w) taskId))
      by apply length_order_by.
    rewrite Hlen.
    split; [|split].
    + now intros ->.
    + intros Hne s Hs. rewrite Hs. cbn [is_some is_none negb].
      destruct (questions_of (db w) taskId); [contradiction|reflexivity].
    + intros Hne Hspec. apply select_spec_none in Hspec. rewrite Hspec.
      cbn [is_some is_none negb].
      destruct (questions_of (db w) taskId); [contradiction|reflexivity].
  - intros w w' taskId st H.
    destruct (generate_success _ _ _ _ H)
      as (_ & _ & Hqs & _ & _ & _ & Hp & Hl & Hs).
    unfold PlanningTab.PlanningTab. rewrite Hl, Hp, Hqs, generated_rows_length.
    reflexivity.
Qed.

Lemma tab_view_of_read_witness :
  exists st,
    fst (respond (PlanningRoute.GET "task-1") Sample.locked) = Json st
    /\ PlanningTab.PlanningTab false (Some st) = PlanningTab.SpecLocked "# Spec".
Proof.
  destruct (fst (respond (PlanningRoute.GET "task-1") Sample.locked))
    as [st|status error] eqn:E; [|vm_compute in E; discriminate].
  exists st. split; [reflexivity|].
  refine (proj1 (proj2 (proj1 tab_view_of_read Sample.locked "task-1" st E))
            _ (mkSpec "spec-1" "task-1" "# Spec") _).
  - vm_compute. discriminate.
  - vm_compute. reflexivity.
Defined.
